(** * ChatJPH: the chat-post handler

    A shallow embedding of [packages/api/src/functions/chat-post.ts]: the
    handler [postChat] and the generator [createJsonStream], together with
    the little of JavaScript that the two rely on (truthiness, property
    reads on parsed JSON, [Array.prototype.at], [JSON.stringify] on the
    response chunk), and the statements of the specification proved about
    them.

    The handler is asynchronous glue around collaborators that are not
    part of the file: the HTTP runtime (the request and the invocation
    context), the process environment, the OpenAI client and the helper
    [getMsDefenderUserJson].  They appear here as data: a request carries
    the outcome of [request.json()], an [Externals] record carries
    [process.env] and what the provider answers, and everything the
    handler does to the outside (log lines, the outbound call) is collected
    in a trace of [Event]s.

    Strings are strings of bytes, the UTF-8 text of the JavaScript string.
    The handler looks inside a string in two places only: to see whether it
    is empty, and in [JSON.stringify], which escapes ASCII characters alone.

    The repository holds a second copy of the file that differs in the text
    of [systemPrompt] and in nothing else; no proof below looks at that
    text. *)

From Stdlib Require Import ZArith QArith String Ascii List Lia.
From stdpp Require Import base option strings list gmap.

Open Scope string_scope.
Set Warnings "-register-all".

(** ** Strings *)

(** The double quote and the line feed, which a literal cannot hold. *)
Definition dquote : string := String "034"%char EmptyString.
Definition newline : string := String "010"%char EmptyString.

(** ** Parsed JSON and JavaScript values *)

(** What [request.json()] resolves to.  The cast to
    [AIChatCompletionRequest] is unchecked, so the handler may meet any
    JSON value.  Numbers are only ever tested for truthiness here and are
    kept as integers.  An object is the list of its own properties, the
    binding in force first. *)
Inductive JSON : Type :=
| JNull
| JBool (b : bool)
| JNumber (n : Z)
| JString (s : string)
| JArray (items : list JSON)
| JObject (props : list (string * JSON)).

(** A JavaScript value as the handler sees one: [None] is [undefined]. *)
Abbreviation JsValue := (option JSON).

(** Errors.  [error.message] is all the handler reads of one.  A
    [TypeError] raised by the engine itself carries the place it was raised
    at; its wording is the engine's (see [typeErrorMessage]). *)
Inductive TypeErrorSite : Type :=
| DestructureNull (prop : string)     (* const { prop } = null *)
| NotAFunction (prop : string)        (* v.prop(...) where v.prop is no function *)
| NotIterable                         (* [...v] where v is not iterable *)
| ReadOfUndefined (prop : string).    (* undefined.prop *)

Inductive JsError : Type :=
| ErrorObject (name message : string)
| TypeError (site : TypeErrorSite).

Definition Error (message : string) : JsError := ErrorObject "Error" message.

(** How an evaluation ends: with a value, or with a thrown error. *)
Inductive Completion (A : Type) : Type :=
| Normal (a : A)
| Throw (e : JsError).
Arguments Normal {A} a.
Arguments Throw {A} e.

(** [ToBoolean]: [undefined], [null], [false], [0] and [""] are falsy,
    everything else (every array and object included) is truthy. *)
Definition truthy (v : JsValue) : bool :=
  match v with
  | None | Some JNull => false
  | Some (JBool b) => b
  | Some (JNumber n) => negb (n =? 0)%Z
  | Some (JString s) => negb (String.eqb s "")
  | Some (JArray _) | Some (JObject _) => true
  end.

(** The first binding of [key] among an object's own properties. *)
Fixpoint assoc (key : string) (props : list (string * JSON)) : JsValue :=
  match props with
  | [] => None
  | (k, v) :: rest => if String.eqb k key then Some v else assoc key rest
  end.

(** [v.key] for a data property [key] that no prototype defines
    ([messages], [content]): only an object can have it. *)
Definition get (key : string) (v : JSON) : JsValue :=
  match v with
  | JObject props => assoc key props
  | _ => None
  end.

(** [const { key } = v]: reading a property of [null] throws. *)
Definition destructure (key : string) (v : JSON) : Completion JsValue :=
  match v with
  | JNull => Throw (TypeError (DestructureNull key))
  | _ => Normal (get key v)
  end.

(** [v?.key]: [undefined] on [undefined] and [null], the property
    otherwise. *)
Definition optional_get (key : string) (v : JsValue) : JsValue :=
  match v with
  | None | Some JNull => None
  | Some w => get key w
  end.

(** [v.length === 0] for a truthy [v]: the length of an array or of a
    string, an own property [length] of an object, [undefined] on a number
    or a boolean. *)
Definition length_is_zero (v : JSON) : bool :=
  match v with
  | JArray items => Nat.eqb (List.length items) 0
  | JString s => Nat.eqb (String.length s) 0
  | JObject props =>
      match assoc "length" props with
      | Some (JNumber n) => (n =? 0)%Z
      | _ => false
      end
  | _ => false
  end.

(** The characters of a string, each a string of its own. *)
Fixpoint characters (s : string) : list JSON :=
  match s with
  | EmptyString => []
  | String c rest => JString (String c EmptyString) :: characters rest
  end.

(** [Array.prototype.at]: a negative index counts from the end, an index
    out of range gives [undefined]. *)
Definition Array_at (items : list JSON) (index : Z) : JsValue :=
  let k := (if index <? 0 then Z.of_nat (List.length items) + index else index)%Z in
  if (k <? 0)%Z then None else items !! Z.to_nat k.

(** [v.at(index)] for a truthy [v].  Arrays and strings have the method;
    a number or a boolean has no [at], and on a parsed object [at] is at
    best a data property: calling it throws. *)
Definition at_ (v : JSON) (index : Z) : Completion JsValue :=
  match v with
  | JArray items => Normal (Array_at items index)
  | JString s => Normal (Array_at (characters s) index)
  | _ => Throw (TypeError (NotAFunction "at"))
  end.

(** [[...v]]: the elements of an array, the characters of a string;
    nothing else that JSON can hold is iterable. *)
Definition spread (v : JsValue) : Completion (list JSON) :=
  match v with
  | Some (JArray items) => Normal items
  | Some (JString s) => Normal (characters s)
  | _ => Throw (TypeError NotIterable)
  end.

(** A string read as a condition or as the left of [||]: [Some s] when it
    is set and not empty. *)
Definition truthy_string (v : option string) : option string :=
  match v with
  | Some s => if String.eqb s "" then None else Some s
  | None => None
  end.

(** ** Provider and protocol data *)

(** [ChatCompletionChunk] of [openai/resources], as far as the generator
    reads it: the choices, each with its delta. *)
Module ChatCompletionChunk.
Record Delta : Type := { content : option string; role : option string }.
Record Choice : Type := { delta : Delta }.
Record t : Type := { choices : list Choice }.
End ChatCompletionChunk.

(** [ChatCompletion]: what a call without [stream] resolves to. *)
Module ChatCompletion.
Record Message : Type := { content : option string; role : string }.
Record Choice : Type := { message : Message }.
Record t : Type := { choices : list Choice }.
End ChatCompletion.

(** [@microsoft/ai-chat-protocol]: the message of a response, whole
    ([AIChatCompletion]) or as a delta ([AIChatCompletionDelta]).  A
    [content] of [None] is [null]. *)
Record AIChatMessage : Type := { content : option string; role : string }.
Record AIChatCompletion : Type := { message : AIChatMessage }.
Record AIChatCompletionDelta : Type := { delta : AIChatMessage }.

(** The [AsyncIterable<ChatCompletionChunk>] a streaming call resolves to:
    the chunks it will deliver, and whether it then ends or fails. *)
Inductive ChunkStream : Type :=
| StreamEnd
| StreamError (e : JsError)
| StreamChunk (chunk : ChatCompletionChunk.t) (rest : ChunkStream).

(** ** [JSON.stringify] *)

Definition hex_digit (n : nat) : ascii :=
  nth n (list_ascii_of_string "0123456789abcdef") "0"%char.

(** [QuoteJSONString], one character at a time: the quote, the backslash and
    the control characters are escaped, everything else is copied. *)
Definition quote_char (c : ascii) : string :=
  let n := nat_of_ascii c in
  if Nat.eqb n 8 then "\b"
  else if Nat.eqb n 9 then "\t"
  else if Nat.eqb n 10 then "\n"
  else if Nat.eqb n 12 then "\f"
  else if Nat.eqb n 13 then "\r"
  else if Nat.eqb n 34 then "\" +:+ dquote
  else if Nat.eqb n 92 then "\\"
  else if Nat.ltb n 32 then
    "\u00" +:+ String (hex_digit (n / 16)) (String (hex_digit (n mod 16)) EmptyString)
  else String c EmptyString.

Fixpoint quote_chars (s : string) : string :=
  match s with
  | EmptyString => EmptyString
  | String c rest => quote_char c +:+ quote_chars rest
  end.

Definition QuoteJSONString (s : string) : string :=
  dquote +:+ quote_chars s +:+ dquote.

(** [SerializeJSONObject] over properties already serialized, without
    indentation: [{"k1":v1,"k2":v2}]. *)
Fixpoint join_properties (props : list (string * string)) : string :=
  match props with
  | [] => EmptyString
  | [(k, v)] => QuoteJSONString k +:+ ":" +:+ v
  | (k, v) :: rest => QuoteJSONString k +:+ ":" +:+ v +:+ "," +:+ join_properties rest
  end.

Definition SerializeJSONObject (props : list (string * string)) : string :=
  "{" +:+ join_properties props +:+ "}".

Definition stringify_message (m : AIChatMessage) : string :=
  SerializeJSONObject
    [("content", match content m with Some s => QuoteJSONString s | None => "null" end);
     ("role", QuoteJSONString (role m))].

(** [JSON.stringify(responseChunk)] at the type of [responseChunk]. *)
Definition JSON_stringify (responseChunk : AIChatCompletionDelta) : string :=
  SerializeJSONObject [("delta", stringify_message (delta responseChunk))].

(** ** [createJsonStream] *)

(** [chunk.choices[0]?.delta.content]. *)
Definition first_delta_content (chunk : ChatCompletionChunk.t) : option string :=
  match ChatCompletionChunk.choices chunk !! 0%nat with
  | None => None
  | Some choice => ChatCompletionChunk.content (ChatCompletionChunk.delta choice)
  end.

(** What one [next()] of a generator settles to. *)
Inductive IteratorResult : Type :=
| Yield (value : string)
| Done
| Raise (e : JsError).

(** The generator object [createJsonStream(chunks)].  Whether it has not
    started or is suspended at its [yield], all it holds is what is left of
    [chunks]: resuming it goes on with the [for await] loop. *)
Inductive AsyncGenerator : Type :=
| createJsonStream (chunks : ChunkStream).

(** One [next()]: pull chunks until one carries content, yield its line and
    suspend; return when [chunks] ends, throw when it fails. *)
Fixpoint createJsonStream_resume (chunks : ChunkStream) : IteratorResult * AsyncGenerator :=
  match chunks with
  | StreamEnd => (Done, createJsonStream StreamEnd)
  | StreamError e => (Raise e, createJsonStream StreamEnd)
  | StreamChunk chunk rest =>
      match truthy_string (first_delta_content chunk) with
      | None => createJsonStream_resume rest
      | Some text =>
          let responseChunk :=
            {| delta := {| content := Some text; role := "assistant" |} |} in
          (Yield (JSON_stringify responseChunk +:+ newline), createJsonStream rest)
      end
  end.

Definition next (g : AsyncGenerator) : IteratorResult * AsyncGenerator :=
  match g with createJsonStream chunks => createJsonStream_resume chunks end.

(** [Readable.from(generator)]: a stream that calls [next()] when it is
    read. *)
Inductive Readable : Type :=
| Readable_from (g : AsyncGenerator).

Fixpoint stream_length (chunks : ChunkStream) : nat :=
  match chunks with
  | StreamChunk _ rest => S (stream_length rest)
  | _ => 0
  end.

(** Reading a stream to its end, at most [fuel] lines: the lines in order,
    and the error it was destroyed with, if any. *)
Fixpoint read_lines (fuel : nat) (g : AsyncGenerator) : option (list string * option JsError) :=
  match fuel with
  | 0 => None
  | S fuel' =>
      match next g with
      | (Yield line, g') =>
          match read_lines fuel' g' with
          | Some (lines, e) => Some (line :: lines, e)
          | None => None
          end
      | (Done, _) => Some ([], None)
      | (Raise e, _) => Some ([], Some e)
      end
  end.

Definition Readable_read_all (r : Readable) : option (list string * option JsError) :=
  match r with
  | Readable_from (createJsonStream chunks) =>
      read_lines (S (stream_length chunks)) (createJsonStream chunks)
  end.
Definition systemPrompt : string :=
  "You are an extremely helpful and knowledgeable AI assistant. Your goal is to provide the most useful, accurate, and comprehensive assistance possible across any topic or task.

Core Behavior:

You can help with:
- Coding and technical problems (debugging, explaining concepts, writing code)
- Writing and editing (essays, emails, creative writing, technical documentation)
- Analysis and research (summarizing information, comparing options, explaining complex topics)
- Problem-solving (brainstorming solutions, breaking down complex problems)
- Learning and education (teaching concepts, creating study materials, answering questions)
- Planning and organization (creating schedules, outlining projects, strategic planning)
- Creative tasks (brainstorming ideas, storytelling, design concepts)
- General knowledge questions on any topic

Response Style:

- Be direct and concise while still being thorough
- Use clear, plain language - avoid jargon unless the user's question is technical
- Provide specific, actionable information
- When explaining complex topics, break them down into understandable parts
- If you're uncertain about something, say so honestly
- Adapt your tone and complexity to match the user's needs
- Match the pace of the user - if they seem to want detailed information, provide it; if they want quick answers, be concise

Multi-Step Instructions:

When providing instructions with multiple steps:

1. Start with a brief overview of all the steps so the user knows what to expect
2. Then provide the first step with clear, detailed instructions
3. STOP after the first step and ask the user to confirm when they've completed it before continuing
4. Wait for the user's confirmation or questions before moving to the next step
5. Continue this pattern - provide one step, wait for confirmation, then proceed
6. If the user asks for all steps at once, you can provide them all, but otherwise default to the step-by-step confirmation approach

Example approach:
"
  +:+ dquote +:+ "Here's what we'll do: First, we'll set up the configuration file. Then we'll install the dependencies. Finally, we'll test the setup. Let's start with step 1..."
  +:+ dquote +:+ "

Then wait for confirmation before continuing to step 2.

This ensures the user doesn't get overwhelmed and can ask questions at each stage.

CRITICAL FORMATTING REQUIREMENTS:

Answer only in plain text. DO NOT use Markdown formatting. No asterisks, no hashtags, no backticks, no special formatting characters. Just plain text.

When writing code or technical content, still use plain text without markdown code blocks. Simply present the code with clear spacing and indentation.

After your answer, you MUST ALWAYS generate exactly 3 very brief follow-up questions that the user would likely ask next, based on the context.

Enclose each follow-up question in double angle brackets like this:
<<How do I test this?>>
<<What are common mistakes to avoid?>>
<<Can you show me an example?>>

IMPORTANT:
- Do not repeat questions that have already been asked in the conversation
- Make sure the last question ends with "
  +:+ dquote +:+ ">>"
  +:+ dquote +:+ "
- The follow-up questions are MANDATORY - never skip them
- Generate new, relevant questions each time based on the current context
- Make the questions natural and conversational, as if anticipating what the user actually wants to know next

Remember: You are genuinely helpful, knowledgeable, and focused on solving the user's actual problems. Provide real solutions, real code, real advice, and real information. Guide users through complex tasks at their own pace, ensuring they understand each step before moving forward.".

(** ** The HTTP runtime *)

(** The request, as the handler uses it: what [request.json()] settles to
    (it rejects when the body is no JSON text), and the headers, which only
    [getMsDefenderUserJson] looks at. *)
Record HttpRequest : Type := {
  request_json : Completion JSON;
  request_headers : list (string * string)
}.

Inductive Body : Type :=
| Text (s : string)
| Stream (r : Readable).

(** [HttpResponseInit]: a field that the handler leaves out is [None] (or
    empty); the runtime answers 200 when [status] is left out. *)
Record HttpResponseInit : Type := {
  status : option nat;
  headers : list (string * string);
  body : option Body;
  jsonBody : option AIChatCompletion
}.

(** ** The OpenAI clients *)

Definition azureOpenAiScope : string := "https://cognitiveservices.azure.com/.default".

(** [new DefaultAzureCredential()]. *)
Inductive TokenCredential : Type :=
| DefaultAzureCredential.

Inductive TokenProvider : Type :=
| getBearerTokenProvider (credentials : TokenCredential) (scope : string).

(** [new OpenAI()] and [new AzureOpenAI({ azureADTokenProvider })]: a
    client is what it was built from.  [new OpenAI()] is reached with
    [OPENAI_API_KEY] set, which is all it asks for; [new AzureOpenAI] also
    reads its API version and endpoint from the environment and throws
    when it misses one (see [AzureOpenAI_throws]). *)
Inductive Client : Type :=
| OpenAI
| AzureOpenAI (azureADTokenProvider : TokenProvider).

Section Handler.

(** [UserSecurityContext] and [getMsDefenderUserJson] (a field of
    [Externals] below) belong to [./security/ms-defender-utils.js], another
    file of the repository.  The handler calls the one and passes its
    result on without looking at it: both are parameters here. *)
Variable UserSecurityContext : Type.

(** The argument of [openai.chat.completions.create].  [stream] is [None]
    where the call leaves the key out, [user_security_context] is [None]
    where its value is [undefined]. *)
Record ChatCompletionCreateParams : Type := {
  messages : list JSON;
  temperature : Q;
  model : string;
  stream : option bool;
  user_security_context : option UserSecurityContext
}.

(** What the handler does to the outside, in order. *)
Inductive Event : Type :=
| Log (line : string)                                      (* context.log *)
| LogError (line : string)                                 (* context.error *)
| Create (openai : Client) (params : ChatCompletionCreateParams).
                                                           (* openai.chat.completions.create *)

(** What the handler reads from the outside. *)
Record Externals : Type := {
  (* process.env *)
  process_env : gmap string string;
  (* the message the engine gives a TypeError of its own *)
  typeErrorMessage : TypeErrorSite -> string;
  (* ./security/ms-defender-utils.js *)
  getMsDefenderUserJson : HttpRequest -> UserSecurityContext;
  (* the error new AzureOpenAI({ azureADTokenProvider }) throws, if it throws *)
  AzureOpenAI_throws : TokenProvider -> option JsError;
  (* what the provider answers to a call without stream, and with stream: true *)
  completion_of : Client -> ChatCompletionCreateParams -> Completion ChatCompletion.t;
  stream_of : Client -> ChatCompletionCreateParams -> Completion ChunkStream
}.

(** [error.message]. *)
Definition message_of (ext : Externals) (error : JsError) : string :=
  match error with
  | ErrorObject _ message => message
  | TypeError site => typeErrorMessage ext site
  end.

(** *** Effects

    A computation of the handler: the events it causes and how it ends. *)
Definition Eff (A : Type) : Type := (list Event * Completion A)%type.

Definition ret {A : Type} (a : A) : Eff A := ([], Normal a).

Definition throw {A : Type} (e : JsError) : Eff A := ([], Throw e).

Definition bind {A B : Type} (m : Eff A) (k : A -> Eff B) : Eff B :=
  match m with
  | (events, Normal a) => let (events', r) := k a in ((events ++ events')%list, r)
  | (events, Throw e) => (events, Throw e)
  end.

(** [try { m } catch (e) { handler e }]. *)
Definition try_catch {A : Type} (m : Eff A) (handler : JsError -> Eff A) : Eff A :=
  match m with
  | (events, Normal a) => (events, Normal a)
  | (events, Throw e) => let (events', r) := handler e in ((events ++ events')%list, r)
  end.

(** An evaluation without effects, and [await] of a promise that has
    settled. *)
Definition lift {A : Type} (c : Completion A) : Eff A := ([], c).

Definition emit (e : Event) : Eff unit := ([e], Normal tt).

Notation "'let!' x ':=' m 'in' k" := (bind m (fun x => k))
  (at level 10, x pattern, m at level 100, k at level 200).
Notation "m ';;' k" := (bind m (fun _ => k))
  (at level 100, k at level 200, right associativity).

(** [new AzureOpenAI({ azureADTokenProvider })]. *)
Definition new_AzureOpenAI (ext : Externals) (azureADTokenProvider : TokenProvider)
    : Eff Client :=
  match AzureOpenAI_throws ext azureADTokenProvider with
  | Some error => throw error
  | None => ret (AzureOpenAI azureADTokenProvider)
  end.

Definition context_log (line : string) : Eff unit := emit (Log line).
Definition context_error (line : string) : Eff unit := emit (LogError line).

(** [await openai.chat.completions.create(params)], without and with
    [stream: true]. *)
Definition chat_completions_create (ext : Externals) (openai : Client)
    (params : ChatCompletionCreateParams) : Eff ChatCompletion.t :=
  emit (Create openai params);; lift (completion_of ext openai params).

Definition chat_completions_create_stream (ext : Externals) (openai : Client)
    (params : ChatCompletionCreateParams) : Eff ChunkStream :=
  emit (Create openai params);; lift (stream_of ext openai params).

(** The provider calls among the events. *)
Fixpoint provider_calls (events : list Event) : list (Client * ChatCompletionCreateParams) :=
  match events with
  | [] => []
  | Create openai params :: rest => (openai, params) :: provider_calls rest
  | _ :: rest => provider_calls rest
  end.

(** *** [postChat] *)

(** The condition of the first [if]:
    [!messages || messages.length === 0 || !messages.at(-1)?.content]. *)
Definition invalid_messages (messages : JsValue) : Completion bool :=
  match messages with
  | None => Normal true
  | Some v =>
      if negb (truthy messages) then Normal true
      else if length_is_zero v then Normal true
      else
        match at_ v (-1) with
        | Normal lastMessage => Normal (negb (truthy (optional_get "content" lastMessage)))
        | Throw e => Throw e
        end
  end.

Definition system_message : JSON :=
  JObject [("role", JString "system"); ("content", JString systemPrompt)].

Definition bad_request : HttpResponseInit :=
  {| status := Some 400;
     headers := [];
     body := Some (Text "Invalid or missing messages in the request body");
     jsonBody := None |}.

Definition service_unavailable : HttpResponseInit :=
  {| status := Some 500;
     headers := [];
     body := Some (Text "Service temporarily unavailable. Please try again later.");
     jsonBody := None |}.

(** [response.choices[0].message.content]: there is no [message] to read
    when the completion has no choice. *)
Definition first_choice_content (response : ChatCompletion.t) : Completion (option string) :=
  match ChatCompletion.choices response !! 0%nat with
  | Some choice => Normal (ChatCompletion.content (ChatCompletion.message choice))
  | None => Throw (TypeError (ReadOfUndefined "message"))
  end.

(** The body of the [try] block. *)
Definition postChat_try (ext : Externals) (stream : bool) (request : HttpRequest)
    : Eff HttpResponseInit :=
  let! requestBody := lift (request_json request) in
  let! messages := lift (destructure "messages" requestBody) in
  let! invalid := lift (invalid_messages messages) in
  if (invalid : bool) then ret bad_request
  else
    let! (model, openai) :=
      match truthy_string (process_env ext !! "OPENAI_API_KEY") with
      | Some _ =>
          context_log "Using OpenAI API";;
          let model :=
            match truthy_string (process_env ext !! "OPENAI_MODEL_NAME") with
            | Some name => name
            | None => "gpt-4o-mini"
            end in
          ret (model, OpenAI)
      | None =>
          match truthy_string (process_env ext !! "AZURE_OPENAI_API_DEPLOYMENT_NAME") with
          | Some deployment =>
              context_log "Using Azure OpenAI";;
              let model := deployment in
              let credentials := DefaultAzureCredential in
              let azureADTokenProvider := getBearerTokenProvider credentials azureOpenAiScope in
              let! openai := new_AzureOpenAI ext azureADTokenProvider in
              ret (model, openai)
          | None => throw (Error "No OpenAI API key or Azure OpenAI deployment provided")
          end
      end in
    let userSecurityContext :=
      match truthy_string (process_env ext !! "MS_DEFENDER_ENABLED") with
      | Some _ => Some (getMsDefenderUserJson ext request)
      | None => None
      end in
    if stream then
      let! callerMessages := lift (spread messages) in
      let! responseStream :=
        chat_completions_create_stream ext openai
          {| messages := system_message :: callerMessages;
             temperature := (7 # 10)%Q;
             model := model;
             stream := Some true;
             user_security_context := userSecurityContext |} in
      let jsonStream := Readable_from (createJsonStream responseStream) in
      ret {| status := None;
             headers := [("Content-Type", "application/x-ndjson");
                         ("Transfer-Encoding", "chunked")];
             body := Some (Stream jsonStream);
             jsonBody := None |}
    else
      let! callerMessages := lift (spread messages) in
      let! response :=
        chat_completions_create ext openai
          {| messages := system_message :: callerMessages;
             temperature := (7 # 10)%Q;
             model := model;
             stream := None;
             user_security_context := userSecurityContext |} in
      let! content := lift (first_choice_content response) in
      ret {| status := None;
             headers := [];
             body := None;
             jsonBody := Some {| message := {| content := content; role := "assistant" |} |} |}.

(** The [catch] block. *)
Definition postChat_catch (ext : Externals) (error : JsError) : Eff HttpResponseInit :=
  context_error ("Error when processing chat-post request: " +:+ message_of ext error);;
  ret service_unavailable.

(** [postChat(stream, request, context)].  The invocation context is the
    sink of the [Log] and [LogError] events. *)
Definition postChat (ext : Externals) (stream : bool) (request : HttpRequest)
    : Eff HttpResponseInit :=
  try_catch (postChat_try ext stream request) (postChat_catch ext).

End Handler.

Arguments messages {UserSecurityContext} _.
Arguments temperature {UserSecurityContext} _.
Arguments model {UserSecurityContext} _.
Arguments stream {UserSecurityContext} _.
Arguments user_security_context {UserSecurityContext} _.
Arguments Log {UserSecurityContext} line.
Arguments LogError {UserSecurityContext} line.
Arguments Create {UserSecurityContext} openai params.
Arguments process_env {UserSecurityContext} _.
Arguments typeErrorMessage {UserSecurityContext} _ _.
Arguments getMsDefenderUserJson {UserSecurityContext} _ _.
Arguments AzureOpenAI_throws {UserSecurityContext} _ _.
Arguments new_AzureOpenAI {UserSecurityContext} ext azureADTokenProvider.
Arguments completion_of {UserSecurityContext} _ _ _.
Arguments stream_of {UserSecurityContext} _ _ _.
Arguments message_of {UserSecurityContext} ext error.
Arguments ret {UserSecurityContext A} a.
Arguments throw {UserSecurityContext A} e.
Arguments bind {UserSecurityContext A B} m k.
Arguments try_catch {UserSecurityContext A} m handler.
Arguments lift {UserSecurityContext A} c.
Arguments emit {UserSecurityContext} e.
Arguments context_log {UserSecurityContext} line.
Arguments context_error {UserSecurityContext} line.
Arguments chat_completions_create {UserSecurityContext} ext openai params.
Arguments chat_completions_create_stream {UserSecurityContext} ext openai params.
Arguments provider_calls {UserSecurityContext} events.
Arguments postChat_try {UserSecurityContext} ext stream request.
Arguments postChat_catch {UserSecurityContext} ext error.
Arguments postChat {UserSecurityContext} ext stream request.

(** ** The words of the specification *)

(** An environment variable is set when it is there and not empty. *)
Definition is_set (env : gmap string string) (name value : string) : Prop :=
  env !! name = Some value /\ value <> "".

Definition not_set (env : gmap string string) (name : string) : Prop :=
  env !! name = None \/ env !! name = Some "".

(** Valid messages: the body parses, its [messages] is an array, the array
    is not empty and its last entry carries content. *)
Definition valid_messages (request : HttpRequest) (messages : list JSON) : Prop :=
  exists body lastMessage content,
    request_json request = Normal body /\
    get "messages" body = Some (JArray messages) /\
    last messages = Some lastMessage /\
    get "content" lastMessage = Some content /\
    truthy (Some content) = true.

(** A body without usable messages: the [messages] field is missing, or
    is an empty array, or the last message has no content or an empty
    one. *)
Definition lacks_messages (body : JSON) : Prop :=
  (body <> JNull /\ get "messages" body = None) \/
  get "messages" body = Some (JArray []) \/
  exists items lastMessage,
    get "messages" body = Some (JArray items) /\
    last items = Some lastMessage /\
    (get "content" lastMessage = None \/ get "content" lastMessage = Some (JString "")).

(** The provider selection policy, in the order it is evaluated. *)
Inductive ProviderChoice (env : gmap string string) : Client -> string -> Prop :=
| direct_named key name :
    is_set env "OPENAI_API_KEY" key ->
    is_set env "OPENAI_MODEL_NAME" name ->
    ProviderChoice env OpenAI name
| direct_default key :
    is_set env "OPENAI_API_KEY" key ->
    not_set env "OPENAI_MODEL_NAME" ->
    ProviderChoice env OpenAI "gpt-4o-mini"
| managed deployment :
    not_set env "OPENAI_API_KEY" ->
    is_set env "AZURE_OPENAI_API_DEPLOYMENT_NAME" deployment ->
    ProviderChoice env
      (AzureOpenAI (getBearerTokenProvider DefaultAzureCredential azureOpenAiScope))
      deployment.

(** The chosen client can be built: [new OpenAI()] always, [new
    AzureOpenAI] when it does not throw. *)
Definition constructible {U : Type} (ext : Externals U) (openai : Client) : Prop :=
  match openai with
  | OpenAI => True
  | AzureOpenAI azureADTokenProvider => AzureOpenAI_throws ext azureADTokenProvider = None
  end.

(** The NDJSON framing: one line per event that carries a text delta, the
    delta under a fixed role, in the order of the events. *)
Definition text_delta (event : ChatCompletionChunk.t) : option string :=
  match ChatCompletionChunk.choices event with
  | [] => None
  | choice :: _ =>
      match ChatCompletionChunk.content (ChatCompletionChunk.delta choice) with
      | Some text => if decide (text = "") then None else Some text
      | None => None
      end
  end.

Definition ndjson_line (text : string) : string :=
  JSON_stringify {| delta := {| content := Some text; role := "assistant" |} |} +:+ newline.

Definition ndjson_lines (events : list ChatCompletionChunk.t) : list string :=
  omap (fun event => ndjson_line <$> text_delta event) events.

(** The events of a provider stream, and the error it ends with. *)
Fixpoint stream_events (chunks : ChunkStream) : list ChatCompletionChunk.t :=
  match chunks with
  | StreamChunk chunk rest => chunk :: stream_events rest
  | _ => []
  end.

Fixpoint stream_failure (chunks : ChunkStream) : option JsError :=
  match chunks with
  | StreamChunk _ rest => stream_failure rest
  | StreamError e => Some e
  | StreamEnd => None
  end.

(** The stream that delivers [events] and goes on as [rest]. *)
Definition followed_by (events : list ChatCompletionChunk.t) (rest : ChunkStream) : ChunkStream :=
  foldr StreamChunk rest events.

(** A literal with ['] for the double quote. *)
Fixpoint with_double_quotes (s : string) : string :=
  match s with
  | EmptyString => EmptyString
  | String c rest =>
      String (if Ascii.eqb c "'"%char then "034"%char else c) (with_double_quotes rest)
  end.

(** ** The outcome of a call that reaches the provider *)

(** The line logged when a client is chosen. *)
Definition selection_log (openai : Client) : string :=
  match openai with
  | OpenAI => "Using OpenAI API"
  | AzureOpenAI _ => "Using Azure OpenAI"
  end.

(** The security context is attached when [MS_DEFENDER_ENABLED] is set. *)
Definition attached_context {U : Type} (ext : Externals U) (request : HttpRequest) : option U :=
  match truthy_string (process_env ext !! "MS_DEFENDER_ENABLED") with
  | Some _ => Some (getMsDefenderUserJson ext request)
  | None => None
  end.

Definition request_params {U : Type} (ext : Externals U) (streaming : bool)
    (request : HttpRequest) (items : list JSON) (name : string)
    : ChatCompletionCreateParams U :=
  {| messages := system_message :: items;
     temperature := (7 # 10)%Q;
     model := name;
     stream := if streaming then Some true else None;
     user_security_context := attached_context ext request |}.

Definition error_line {U : Type} (ext : Externals U) (error : JsError) : string :=
  "Error when processing chat-post request: " +:+ message_of ext error.

Definition ndjson_response (chunks : ChunkStream) : HttpResponseInit :=
  {| status := None;
     headers := [("Content-Type", "application/x-ndjson"); ("Transfer-Encoding", "chunked")];
     body := Some (Stream (Readable_from (createJsonStream chunks)));
     jsonBody := None |}.

Definition json_response (text : option string) : HttpResponseInit :=
  {| status := None;
     headers := [];
     body := None;
     jsonBody := Some {| message := {| content := text; role := "assistant" |} |} |}.

(** What [postChat] comes to once the messages are valid and a client is
    chosen, by what the provider answers. *)
Definition served {U : Type} (ext : Externals U) (streaming : bool) (openai : Client)
    (params : ChatCompletionCreateParams U) : Eff U HttpResponseInit :=
  let called := [Log (selection_log openai); Create openai params] in
  let failed error :=
    ((called ++ [LogError (error_line ext error)])%list, Normal service_unavailable) in
  if streaming then
    match stream_of ext openai params with
    | Normal chunks => (called, Normal (ndjson_response chunks))
    | Throw error => failed error
    end
  else
    match completion_of ext openai params with
    | Normal response =>
        match ChatCompletion.choices response with
        | choice :: _ =>
            (called,
             Normal (json_response (ChatCompletion.content (ChatCompletion.message choice))))
        | [] => failed (TypeError (ReadOfUndefined "message"))
        end
    | Throw error => failed error
    end.

(** ** Example data *)

Definition user_message (text : string) : JSON :=
  JObject [("role", JString "user"); ("content", JString text)].

Definition request_of (body : JSON) : HttpRequest :=
  {| request_json := Normal body; request_headers := [] |}.

Definition hello_request : HttpRequest :=
  request_of (JObject [("messages", JArray [user_message "Hello"])]).

Definition unparseable_request : HttpRequest :=
  {| request_json := Throw (ErrorObject "SyntaxError" "Unexpected end of JSON input");
     request_headers := [] |}.

Definition text_chunk (text : string) : ChatCompletionChunk.t :=
  {| ChatCompletionChunk.choices :=
       [{| ChatCompletionChunk.delta :=
             {| ChatCompletionChunk.content := Some text;
                ChatCompletionChunk.role := None |} |}] |}.

Definition role_chunk : ChatCompletionChunk.t :=
  {| ChatCompletionChunk.choices :=
       [{| ChatCompletionChunk.delta :=
             {| ChatCompletionChunk.content := None;
                ChatCompletionChunk.role := Some "assistant" |} |}] |}.

Definition hello_stream : ChunkStream :=
  StreamChunk (text_chunk "Hel") (StreamChunk role_chunk (StreamChunk (text_chunk "lo") StreamEnd)).

(** A stream that fails after its first chunk. *)
Definition interrupted_stream : ChunkStream :=
  StreamChunk (text_chunk "Hel") (StreamError (Error "Connection error.")).

Definition hello_completion : ChatCompletion.t :=
  {| ChatCompletion.choices :=
       [{| ChatCompletion.message :=
             {| ChatCompletion.content := Some "Hello!";
                ChatCompletion.role := "assistant" |} |}] |}.

(** An [AzureOpenAI_throws] in the manner of the openai package: the
    constructor wants an API version, no API key beside the token
    provider, and an endpoint or a base URL. *)
Definition openai_package_throws (env : gmap string string) (_ : TokenProvider)
    : option JsError :=
  match truthy_string (env !! "OPENAI_API_VERSION") with
  | None =>
      Some (ErrorObject "Error"
        "The OPENAI_API_VERSION environment variable is missing or empty")
  | Some _ =>
      match truthy_string (env !! "AZURE_OPENAI_API_KEY") with
      | Some _ =>
          Some (ErrorObject "Error"
            "The apiKey and azureADTokenProvider arguments are mutually exclusive")
      | None =>
          match truthy_string (env !! "OPENAI_BASE_URL"),
                truthy_string (env !! "AZURE_OPENAI_ENDPOINT") with
          | None, None =>
              Some (ErrorObject "Error"
                "Must provide one of the baseURL or endpoint arguments")
          | _, _ => None
          end
      end
  end.

(** A runtime over [env] whose provider answers every call alike; the
    security context is the list of headers. *)
Definition externals_of (env : gmap string string)
    (answer : Completion ChatCompletion.t) (answer_stream : Completion ChunkStream)
    : Externals (list (string * string)) :=
  {| process_env := env;
     typeErrorMessage := fun _ => "TypeError";
     getMsDefenderUserJson := request_headers;
     AzureOpenAI_throws := openai_package_throws env;
     completion_of := fun _ _ => answer;
     stream_of := fun _ _ => answer_stream |}.

Definition openai_env : gmap string string := <["OPENAI_API_KEY" := "sk-test"]> ∅.

(** The deployment name alone: the Azure client is chosen and cannot be
    built. *)
Definition deployment_only_env : gmap string string :=
  <["AZURE_OPENAI_API_DEPLOYMENT_NAME" := "gpt-4o"]> ∅.

Definition azure_env : gmap string string :=
  <["AZURE_OPENAI_API_DEPLOYMENT_NAME" := "gpt-4o"]>
    (<["AZURE_OPENAI_ENDPOINT" := "https://example.openai.azure.com"]>
       (<["OPENAI_API_VERSION" := "2024-10-21"]>
          (<["MS_DEFENDER_ENABLED" := "false"]> ∅))).

Definition openai_externals : Externals (list (string * string)) :=
  externals_of openai_env (Normal hello_completion) (Normal hello_stream).

Definition azure_externals : Externals (list (string * string)) :=
  externals_of azure_env (Normal hello_completion) (Normal hello_stream).

Definition deployment_only_externals : Externals (list (string * string)) :=
  externals_of deployment_only_env (Normal hello_completion) (Normal hello_stream).

Definition unconfigured_externals : Externals (list (string * string)) :=
  externals_of ∅ (Normal hello_completion) (Normal hello_stream).

Definition failing_externals : Externals (list (string * string)) :=
  externals_of openai_env (Throw (Error "429 Rate limit reached"))
    (Throw (Error "Connection error.")).

Definition interrupted_externals : Externals (list (string * string)) :=
  externals_of openai_env (Normal hello_completion) (Normal interrupted_stream).

(** ** The registered functions *)

(** [app.setup({ enableHttpStream: true })]. *)
Definition enableHttpStream : bool := true.

(** The options of one [app.http] registration.  The handler is
    [postChat] with its first argument bound. *)
Record HttpFunctionOptions (U : Type) : Type := {
  route : string;
  methods : list string;
  authLevel : string;
  handler : Externals U -> HttpRequest -> Eff U HttpResponseInit
}.
Arguments route {U} _.
Arguments methods {U} _.
Arguments authLevel {U} _.
Arguments handler {U} _ _ _.

(** The two calls of [app.http], by the name each registers. *)
Definition registered_functions {U : Type} : list (string * HttpFunctionOptions U) :=
  [("chat-stream-post",
    {| route := "chat/stream";
       methods := ["POST"];
       authLevel := "anonymous";
       handler := fun ext request => postChat ext true request |});
   ("chat-post",
    {| route := "chat";
       methods := ["POST"];
       authLevel := "anonymous";
       handler := fun ext request => postChat ext false request |})].

(** ** Reading a serialized string back *)

(** No character below the space: what a line of NDJSON may hold before
    its line feed. *)
Fixpoint no_control_characters (s : string) : bool :=
  match s with
  | EmptyString => true
  | String c rest => negb (Nat.ltb (nat_of_ascii c) 32) && no_control_characters rest
  end.

Definition hex_value (c : ascii) : option nat :=
  let n := nat_of_ascii c in
  if Nat.leb 48 n && Nat.leb n 57 then Some (n - 48)
  else if Nat.leb 97 n && Nat.leb n 102 then Some (n - 87)
  else None.

(** The inverse of [quote_chars]: the escapes that [quote_char] writes are
    read back, every other character stands for itself. *)
Fixpoint unquote_chars (s : string) : option string :=
  match s with
  | EmptyString => Some EmptyString
  | String c rest =>
      if negb (Ascii.eqb c "\"%char) then String c <$> unquote_chars rest
      else
        match rest with
        | EmptyString => None
        | String e rest' =>
            let n := nat_of_ascii e in
            if Nat.eqb n 98 then String (ascii_of_nat 8) <$> unquote_chars rest'
            else if Nat.eqb n 116 then String (ascii_of_nat 9) <$> unquote_chars rest'
            else if Nat.eqb n 110 then String (ascii_of_nat 10) <$> unquote_chars rest'
            else if Nat.eqb n 102 then String (ascii_of_nat 12) <$> unquote_chars rest'
            else if Nat.eqb n 114 then String (ascii_of_nat 13) <$> unquote_chars rest'
            else if Nat.eqb n 34 then String (ascii_of_nat 34) <$> unquote_chars rest'
            else if Nat.eqb n 92 then String (ascii_of_nat 92) <$> unquote_chars rest'
            else if Nat.eqb n 117 then
              match rest' with
              | String _ (String _ (String high (String low rest''))) =>
                  match hex_value high, hex_value low with
                  | Some h, Some l => String (ascii_of_nat (16 * h + l)) <$> unquote_chars rest''
                  | _, _ => None
                  end
              | _ => None
              end
            else None
        end
  end.

(** A request with other headers. *)
Definition with_headers (request : HttpRequest) (others : list (string * string)) : HttpRequest :=
  {| request_json := request_json request; request_headers := others |}.

(** ** Properties *)

Section Properties.
Context {UserSecurityContext : Type}.
Implicit Types (ext : Externals UserSecurityContext) (env : gmap string string).
Implicit Types (request : HttpRequest) (items : list JSON).

Lemma truthy_string_Some (v : option string) (s : string) :
  truthy_string v = Some s <-> v = Some s /\ s <> "".
Proof.
  unfold truthy_string. destruct v as [t|]; [|split; [discriminate | intros [? _]; discriminate]].
  destruct (String.eqb_spec t "") as [->|Hne]; split.
  - discriminate.
  - intros [[= <-] Hne]. congruence.
  - intros [= <-]. auto.
  - intros [[= <-] _]. reflexivity.
Qed.

Lemma truthy_string_None (v : option string) :
  truthy_string v = None <-> v = None \/ v = Some "".
Proof.
  unfold truthy_string. destruct v as [t|]; [|split; auto].
  destruct (String.eqb_spec t "") as [->|Hne]; split; auto; try discriminate.
  intros [?|[= ->]]; congruence.
Qed.

Lemma is_set_truthy env name value :
  is_set env name value -> truthy_string (env !! name) = Some value.
Proof. intros H. apply truthy_string_Some, H. Qed.

Lemma not_set_truthy env name :
  not_set env name -> truthy_string (env !! name) = None.
Proof. intros H. apply truthy_string_None, H. Qed.

Lemma Array_at_last items : Array_at items (-1) = last items.
Proof.
  unfold Array_at. simpl.
  destruct items as [|x items] using rev_ind; [reflexivity|].
  rewrite last_snoc, length_app. simpl.
  replace (Z.of_nat (List.length items + 1) + -1)%Z with (Z.of_nat (List.length items)) by lia.
  destruct (Z.ltb_spec (Z.of_nat (List.length items)) 0) as [?|_]; [lia|].
  rewrite Nat2Z.id. apply list_lookup_middle. reflexivity.
Qed.

Lemma last_characters s : last (characters s) = None \/ exists c, last (characters s) = Some (JString c).
Proof.
  induction s as [|c s IH]; [left; reflexivity|].
  right. simpl. destruct (characters s) as [|x l] eqn:E; [eauto|].
  rewrite last_cons. destruct IH as [IH|[d IH]]; rewrite IH; eauto.
Qed.


Lemma invalid_messages_valid items lastMessage c :
  last items = Some lastMessage ->
  get "content" lastMessage = Some c ->
  truthy (Some c) = true ->
  invalid_messages (Some (JArray items)) = Normal false.
Proof.
  intros Hlast Hget Htruthy. unfold invalid_messages. simpl.
  destruct items as [|x items]; [discriminate|]. simpl length_is_zero. cbv iota.
  rewrite Array_at_last, Hlast.
  destruct lastMessage; simpl in Hget; try discriminate.
  simpl. rewrite Hget, Htruthy. reflexivity.
Qed.

Lemma invalid_messages_false (v : JsValue) :
  invalid_messages v = Normal false ->
  exists items lastMessage c,
    v = Some (JArray items) /\ last items = Some lastMessage /\
    get "content" lastMessage = Some c /\ truthy (Some c) = true.
Proof.
  destruct v as [[| b | n | s | items | props]|]; simpl; try discriminate.
  - destruct b; simpl; discriminate.
  - destruct (n =? 0)%Z; simpl; discriminate.
  - destruct (String.eqb s ""); simpl; [discriminate|].
    destruct (Nat.eqb (String.length s) 0); [discriminate|].
    rewrite Array_at_last.
    destruct (last_characters s) as [->|[c ->]]; simpl; discriminate.
  - destruct (Nat.eqb (List.length items) 0); [discriminate|].
    rewrite Array_at_last.
    destruct (last items) as [lastMessage|] eqn:Hlast; simpl; [|discriminate].
    intros [= H]. apply negb_false_iff in H.
    destruct lastMessage; simpl in H; try discriminate.
    destruct (assoc "content" props) as [c|] eqn:Hc; [|discriminate].
    exists items, (JObject props), c. auto.
  - destruct (assoc "length" props) as [[]|]; try discriminate.
    destruct (n =? 0)%Z; discriminate.
Qed.

Lemma destructure_Normal key (body : JSON) (v : JsValue) :
  destructure key body = Normal v <-> body <> JNull /\ get key body = v.
Proof.
  destruct body; simpl; split; try (intros [= <-]; split; [discriminate|reflexivity]);
    try (intros [_ <-]; reflexivity).
  - discriminate.
  - intros [H _]. contradiction.
Qed.

Lemma bind_Normal {A B : Type} (a : A) (k : A -> Eff UserSecurityContext B) :
  bind (lift (Normal a)) k = k a.
Proof. unfold bind, lift. destruct (k a). reflexivity. Qed.

Lemma bind_Throw {A B : Type} (e : JsError) (k : A -> Eff UserSecurityContext B) :
  bind (lift (Throw e)) k = throw e.
Proof. reflexivity. Qed.

Lemma bind_ret {A B : Type} (a : A) (k : A -> Eff UserSecurityContext B) :
  bind (ret a) k = k a.
Proof. apply bind_Normal. Qed.

Lemma bind_emit {B : Type} (event : Event UserSecurityContext) (k : unit -> Eff UserSecurityContext B) :
  bind (emit event) k = (event :: fst (k tt), snd (k tt)).
Proof. unfold bind, emit. destruct (k tt). reflexivity. Qed.


Lemma postChat_valid ext streaming request items openai name :
  valid_messages request items ->
  ProviderChoice (process_env ext) openai name ->
  constructible ext openai ->
  postChat ext streaming request
  = served ext streaming openai (request_params ext streaming request items name).
Proof.
  intros (body & lastMessage & c & Hjson & Hmessages & Hlast & Hc & Htruthy) Hchoice Hbuilt.
  assert (Hbody : destructure "messages" body = Normal (Some (JArray items))).
  { apply destructure_Normal. split; [|exact Hmessages]. intros ->. discriminate. }
  unfold postChat, postChat_try.
  rewrite Hjson, bind_Normal, Hbody, bind_Normal.
  rewrite (invalid_messages_valid items lastMessage c Hlast Hc Htruthy), bind_Normal.
  unfold served, request_params, attached_context, error_line.
  unfold chat_completions_create, chat_completions_create_stream, first_choice_content.
  destruct Hchoice as [key name Hkey Hname | key Hkey Hname | deployment Hkey Hname].
  - rewrite (is_set_truthy _ _ _ Hkey), (is_set_truthy _ _ _ Hname).
    destruct streaming; simpl.
    + destruct (stream_of ext _ _); reflexivity.
    + destruct (completion_of ext _ _) as [[[|choice rest]]|]; reflexivity.
  - rewrite (is_set_truthy _ _ _ Hkey), (not_set_truthy _ _ Hname).
    destruct streaming; simpl.
    + destruct (stream_of ext _ _); reflexivity.
    + destruct (completion_of ext _ _) as [[[|choice rest]]|]; reflexivity.
  - rewrite (not_set_truthy _ _ Hkey), (is_set_truthy _ _ _ Hname).
    unfold new_AzureOpenAI. simpl in Hbuilt. rewrite Hbuilt.
    destruct streaming; simpl.
    + destruct (stream_of ext _ _); reflexivity.
    + destruct (completion_of ext _ _) as [[[|choice rest]]|]; reflexivity.
Qed.

(** With valid messages and the Azure client chosen, a constructor that
    throws ends the invocation: the selection is logged, the error is
    logged, and no provider is called. *)
Lemma postChat_unconstructible ext streaming request items azureADTokenProvider name error :
  valid_messages request items ->
  ProviderChoice (process_env ext) (AzureOpenAI azureADTokenProvider) name ->
  AzureOpenAI_throws ext azureADTokenProvider = Some error ->
  postChat ext streaming request
  = ([Log "Using Azure OpenAI"; LogError (error_line ext error)],
     Normal service_unavailable).
Proof.
  intros (body & lastMessage & c & Hjson & Hmessages & Hlast & Hc & Htruthy) Hchoice Hthrows.
  assert (Hbody : destructure "messages" body = Normal (Some (JArray items))).
  { apply destructure_Normal. split; [|exact Hmessages]. intros ->. discriminate. }
  unfold postChat, postChat_try.
  rewrite Hjson, bind_Normal, Hbody, bind_Normal.
  rewrite (invalid_messages_valid items lastMessage c Hlast Hc Htruthy), bind_Normal.
  inversion Hchoice as [ | | deployment Hkey Hname]; subst.
  rewrite (not_set_truthy _ _ Hkey), (is_set_truthy _ _ _ Hname).
  unfold new_AzureOpenAI. rewrite Hthrows. reflexivity.
Qed.


Lemma postChat_unconfigured ext streaming request items :
  valid_messages request items ->
  not_set (process_env ext) "OPENAI_API_KEY" ->
  not_set (process_env ext) "AZURE_OPENAI_API_DEPLOYMENT_NAME" ->
  postChat ext streaming request
  = ([LogError (error_line ext (Error "No OpenAI API key or Azure OpenAI deployment provided"))],
     Normal service_unavailable).
Proof.
  intros (body & lastMessage & c & Hjson & Hmessages & Hlast & Hc & Htruthy) Hkey Hname.
  assert (Hbody : destructure "messages" body = Normal (Some (JArray items))).
  { apply destructure_Normal. split; [|exact Hmessages]. intros ->. discriminate. }
  unfold postChat, postChat_try.
  rewrite Hjson, bind_Normal, Hbody, bind_Normal.
  rewrite (invalid_messages_valid items lastMessage c Hlast Hc Htruthy), bind_Normal.
  rewrite (not_set_truthy _ _ Hkey), (not_set_truthy _ _ Hname).
  reflexivity.
Qed.

Lemma served_calls ext streaming openai params :
  provider_calls (fst (served ext streaming openai params)) = [(openai, params)].
Proof.
  unfold served. destruct streaming.
  - destruct (stream_of ext openai params); reflexivity.
  - destruct (completion_of ext openai params) as [[[|choice rest]]|]; reflexivity.
Qed.

Lemma provider_calls_In (events : list (Event UserSecurityContext)) openai params :
  In (Create openai params) events <-> In (openai, params) (provider_calls events).
Proof.
  induction events as [|event events IH]; simpl; [reflexivity|].
  destruct event; simpl; rewrite <- IH; split; intros H.
  all: repeat match goal with
       | H : _ \/ _ |- _ => destruct H
       | H : Create _ _ = Create _ _ |- _ => injection H as -> ->
       | H : (_, _) = (_, _) |- _ => injection H as -> ->
       end; auto; discriminate.
Qed.

(** A provider is called only with valid messages, by the client the
    policy chooses, once that client is built, and with these
    parameters. *)
Lemma postChat_call_inv ext streaming request openai params :
  In (Create openai params) (fst (postChat ext streaming request)) ->
  exists items name,
    valid_messages request items /\
    ProviderChoice (process_env ext) openai name /\
    constructible ext openai /\
    params = request_params ext streaming request items name.
Proof.
  intros Hin.
  destruct (request_json request) as [body|e] eqn:Hjson.
  2:{ unfold postChat, postChat_try in Hin. rewrite Hjson in Hin. simpl in Hin.
      destruct Hin as [|[]]; discriminate. }
  destruct (destructure "messages" body) as [v|e] eqn:Hbody.
  2:{ unfold postChat, postChat_try in Hin. rewrite Hjson, bind_Normal, Hbody in Hin.
      simpl in Hin. destruct Hin as [|[]]; discriminate. }
  destruct (invalid_messages v) as [[|]|e] eqn:Hinvalid.
  1,3: unfold postChat, postChat_try in Hin;
       rewrite Hjson, bind_Normal, Hbody, bind_Normal, Hinvalid in Hin;
       simpl in Hin; try destruct Hin as [|[]]; try discriminate; contradiction.
  apply invalid_messages_false in Hinvalid as (items & lastMessage & c & -> & Hlast & Hc & Htruthy).
  apply destructure_Normal in Hbody as [_ Hmessages].
  assert (Hvalid : valid_messages request items).
  { exists body, lastMessage, c. auto. }
  assert (Hserved : forall chosen name,
    ProviderChoice (process_env ext) chosen name ->
    constructible ext chosen ->
    exists items name,
      valid_messages request items /\
      ProviderChoice (process_env ext) openai name /\
      constructible ext openai /\
      params = request_params ext streaming request items name).
  { intros chosen name Hchoice Hbuilt.
    rewrite (postChat_valid _ _ _ _ _ _ Hvalid Hchoice Hbuilt) in Hin.
    apply provider_calls_In in Hin. rewrite served_calls in Hin.
    destruct Hin as [[= <- <-]|[]]. eauto 8. }
  destruct (truthy_string (process_env ext !! "OPENAI_API_KEY")) as [key|] eqn:Hkey.
  - apply truthy_string_Some in Hkey.
    destruct (truthy_string (process_env ext !! "OPENAI_MODEL_NAME")) as [name|] eqn:Hname.
    + apply truthy_string_Some in Hname.
      exact (Hserved _ _ (direct_named _ key name Hkey Hname) I).
    + apply truthy_string_None in Hname.
      exact (Hserved _ _ (direct_default _ key Hkey Hname) I).
  - apply truthy_string_None in Hkey.
    destruct (truthy_string (process_env ext !! "AZURE_OPENAI_API_DEPLOYMENT_NAME"))
      as [deployment|] eqn:Hname.
    + apply truthy_string_Some in Hname.
      pose proof (managed _ deployment Hkey Hname) as Hchoice.
      destruct (AzureOpenAI_throws ext
                  (getBearerTokenProvider DefaultAzureCredential azureOpenAiScope))
        as [error|] eqn:Hthrows.
      * rewrite (postChat_unconstructible _ _ _ _ _ _ _ Hvalid Hchoice Hthrows) in Hin.
        destruct Hin as [|[|[]]]; discriminate.
      * exact (Hserved _ _ Hchoice Hthrows).
    + apply truthy_string_None in Hname.
      rewrite (postChat_unconfigured _ _ _ _ Hvalid Hkey Hname) in Hin.
      destruct Hin as [|[]]; discriminate.
Qed.

(** And with valid messages and a client chosen and built, the call is
    made. *)
Lemma postChat_reaches_provider ext streaming request items openai name :
  valid_messages request items ->
  ProviderChoice (process_env ext) openai name ->
  constructible ext openai ->
  In (Create openai (request_params ext streaming request items name))
     (fst (postChat ext streaming request)).
Proof.
  intros Hvalid Hchoice Hbuilt. apply provider_calls_In.
  rewrite (postChat_valid _ _ _ _ _ _ Hvalid Hchoice Hbuilt), served_calls.
  left. reflexivity.
Qed.

(** A body that parses to [null] has no field to read: the destructuring
    throws and the handler answers 500. *)
Lemma postChat_null_body ext streaming request :
  request_json request = Normal JNull ->
  postChat ext streaming request
  = ([LogError (error_line ext (TypeError (DestructureNull "messages")))],
     Normal service_unavailable).
Proof.
  intros Hjson. unfold postChat, postChat_try. rewrite Hjson. reflexivity.
Qed.

(** *** The generator *)

Lemma text_delta_first (chunk : ChatCompletionChunk.t) :
  text_delta chunk = truthy_string (first_delta_content chunk).
Proof.
  unfold text_delta, first_delta_content, truthy_string.
  destruct chunk as [[|choice others]]; simpl; [reflexivity|].
  destruct (ChatCompletionChunk.content (ChatCompletionChunk.delta choice)) as [text|];
    [|reflexivity].
  destruct (String.eqb_spec text ""); case_decide; congruence.
Qed.

Lemma ndjson_lines_cons event events :
  ndjson_lines (event :: events)
  = match text_delta event with
    | Some text => ndjson_line text :: ndjson_lines events
    | None => ndjson_lines events
    end.
Proof. unfold ndjson_lines. simpl. destruct (text_delta event); reflexivity. Qed.

(** One [next()] against the framing: it yields the first line that is
    due and leaves a shorter stream, or ends as the stream does. *)
Lemma resume_spec chunks :
  match createJsonStream_resume chunks with
  | (Yield line, createJsonStream rest) =>
      stream_length rest < stream_length chunks /\
      ndjson_lines (stream_events chunks) = line :: ndjson_lines (stream_events rest) /\
      stream_failure chunks = stream_failure rest
  | (Done, _) =>
      ndjson_lines (stream_events chunks) = [] /\ stream_failure chunks = None
  | (Raise e, _) =>
      ndjson_lines (stream_events chunks) = [] /\ stream_failure chunks = Some e
  end.
Proof.
  induction chunks as [|e|chunk rest IH]; [simpl; auto..|].
  cbn [createJsonStream_resume stream_events stream_failure stream_length].
  rewrite ndjson_lines_cons, text_delta_first.
  destruct (truthy_string (first_delta_content chunk)) as [text|].
  - repeat split. lia.
  - destruct (createJsonStream_resume rest) as [[line| |e] [rest']]; auto.
    destruct IH as (Hlt & Hlines & Hfail). repeat split; auto with arith.
Qed.

Lemma read_lines_spec fuel chunks :
  stream_length chunks < fuel ->
  read_lines fuel (createJsonStream chunks)
  = Some (ndjson_lines (stream_events chunks), stream_failure chunks).
Proof.
  revert chunks. induction fuel as [|fuel IH]; intros chunks Hfuel; [lia|].
  simpl. pose proof (resume_spec chunks) as Hnext.
  destruct (createJsonStream_resume chunks) as [[line| |e] [rest]].
  - destruct Hnext as (Hlt & -> & ->). rewrite IH by lia. reflexivity.
  - destruct Hnext as [-> ->]. reflexivity.
  - destruct Hnext as [-> ->]. reflexivity.
Qed.

Lemma read_all_spec chunks :
  Readable_read_all (Readable_from (createJsonStream chunks))
  = Some (ndjson_lines (stream_events chunks), stream_failure chunks).
Proof. apply read_lines_spec. simpl. lia. Qed.

Lemma resume_skips skipped rest :
  Forall (fun event => text_delta event = None) skipped ->
  createJsonStream_resume (followed_by skipped rest) = createJsonStream_resume rest.
Proof.
  induction 1 as [|event skipped Hevent _ IH]; simpl; [reflexivity|].
  rewrite <- text_delta_first, Hevent. exact IH.
Qed.

Lemma followed_by_app events events' rest :
  followed_by (events ++ events') rest = followed_by events (followed_by events' rest).
Proof. unfold followed_by. apply foldr_app. Qed.

Lemma append_assoc (s t u : string) : (s +:+ t) +:+ u = s +:+ (t +:+ u).
Proof.
  induction s as [|c s IH]; [reflexivity|].
  change (String c ((s +:+ t) +:+ u) = String c (s +:+ (t +:+ u))).
  rewrite IH. reflexivity.
Qed.

(** The text of a line. *)
Lemma ndjson_line_format text :
  ndjson_line text
  = with_double_quotes "{'delta':{'content':" +:+ QuoteJSONString text
    +:+ with_double_quotes ",'role':'assistant'}}" +:+ newline.
Proof.
  cbv [ndjson_line JSON_stringify SerializeJSONObject stringify_message join_properties
       QuoteJSONString delta content role].
  rewrite !append_assoc. reflexivity.
Qed.

(** The handler never rejects: whatever happens, it resolves to a
    response. *)
Lemma postChat_resolves ext streaming request :
  exists response, snd (postChat ext streaming request) = Normal response.
Proof.
  unfold postChat, try_catch.
  destruct (postChat_try ext streaming request) as [events [response|e]]; simpl; eauto.
Qed.


Lemma invalid_messages_lacking (body : JSON) :
  lacks_messages body ->
  destructure "messages" body = Normal (get "messages" body) /\
  invalid_messages (get "messages" body) = Normal true.
Proof.
  intros [[Hbody Hget] | [Hget | (items & lastMessage & Hget & Hlast & Hcontent)]].
  - split; [apply destructure_Normal; auto|]. rewrite Hget. reflexivity.
  - split; [|rewrite Hget; reflexivity].
    apply destructure_Normal. split; [intros ->; discriminate|reflexivity].
  - split; [apply destructure_Normal; split; [intros ->; discriminate|reflexivity]|].
    rewrite Hget. unfold invalid_messages. simpl.
    destruct items as [|x items]; [discriminate|]. simpl length_is_zero. cbv iota.
    rewrite Array_at_last, Hlast.
    destruct lastMessage; simpl in *; destruct Hcontent as [H|H];
      try discriminate; try rewrite H; reflexivity.
Qed.

(** *** The claims of the specification

    A call reaches the provider exactly when the messages are valid and
    the selection policy chooses a client that can be built
    ([postChat_call_inv], [postChat_reaches_provider]).  What is claimed
    of a valid call that is served is stated below of whatever call the
    trace of the invocation records. *)

(** C1.  A request whose parsed body lacks usable messages (the [messages]
    field is missing, the array is empty, or the last message has no
    content or an empty one) is answered with status 400 and the fixed
    text, and the invocation causes no event at all: in particular no call
    to [openai.chat.completions.create]. *)
Theorem postChat_rejects_unusable_messages ext streaming request body :
  request_json request = Normal body ->
  lacks_messages body ->
  postChat ext streaming request
  = ([], Normal {| status := Some 400;
                   headers := [];
                   body := Some (Text "Invalid or missing messages in the request body");
                   jsonBody := None |})
  /\ provider_calls (fst (postChat ext streaming request)) = [].
Proof.
  intros Hjson Hlacks.
  destruct (invalid_messages_lacking body Hlacks) as [Hbody Hinvalid].
  assert (H : postChat ext streaming request = ([], Normal bad_request)).
  { unfold postChat, postChat_try.
    rewrite Hjson, bind_Normal, Hbody, bind_Normal, Hinvalid, bind_Normal.
    reflexivity. }
  rewrite H. split; reflexivity.
Qed.

(** C2, as amended.  A request whose body cannot be parsed ([request.json()]
    rejects) is answered with status 500 and the static service-unavailable
    text, after the parse error's message is logged: it is of the 500 kind,
    not of the 400 kind, and no provider is called. *)
Theorem postChat_unparseable_body ext streaming request error :
  request_json request = Throw error ->
  postChat ext streaming request
  = ([LogError ("Error when processing chat-post request: " +:+ message_of ext error)],
     Normal {| status := Some 500;
               headers := [];
               body := Some (Text "Service temporarily unavailable. Please try again later.");
               jsonBody := None |}).
Proof.
  intros Hjson. unfold postChat, postChat_try. rewrite Hjson. reflexivity.
Qed.

(** C3, as amended.  With valid messages the provider is chosen once, in
    order.  When [OPENAI_API_KEY] is set the direct client is used, with
    the model [OPENAI_MODEL_NAME] when that is set and [gpt-4o-mini]
    otherwise: exactly one call is made, by that client with that model.
    Else, when [AZURE_OPENAI_API_DEPLOYMENT_NAME] is set, the Azure client
    is built from the bearer-token provider of the default credential:
    when its constructor returns, exactly one call is made, by that client
    with the deployment name as model; when its constructor throws, the
    selection and the error are logged and the answer is 500, with no
    call.  When neither is set an error is raised and no provider is
    called.  One of the three cases always holds. *)
Theorem provider_selection ext streaming request items :
  valid_messages request items ->
  (forall name,
     ProviderChoice (process_env ext) OpenAI name ->
     exists params,
       provider_calls (fst (postChat ext streaming request)) = [(OpenAI, params)] /\
       model params = name) /\
  (forall azureADTokenProvider name,
     ProviderChoice (process_env ext) (AzureOpenAI azureADTokenProvider) name ->
     azureADTokenProvider = getBearerTokenProvider DefaultAzureCredential azureOpenAiScope /\
     (AzureOpenAI_throws ext azureADTokenProvider = None ->
      exists params,
        provider_calls (fst (postChat ext streaming request))
        = [(AzureOpenAI azureADTokenProvider, params)] /\
        model params = name) /\
     (forall error,
        AzureOpenAI_throws ext azureADTokenProvider = Some error ->
        postChat ext streaming request
        = ([Log "Using Azure OpenAI";
            LogError ("Error when processing chat-post request: "
                      +:+ message_of ext error)],
           Normal service_unavailable))) /\
  (not_set (process_env ext) "OPENAI_API_KEY" ->
   not_set (process_env ext) "AZURE_OPENAI_API_DEPLOYMENT_NAME" ->
   provider_calls (fst (postChat ext streaming request)) = [] /\
   postChat ext streaming request
   = ([LogError ("Error when processing chat-post request: "
                 +:+ "No OpenAI API key or Azure OpenAI deployment provided")],
      Normal service_unavailable)) /\
  ((exists openai name, ProviderChoice (process_env ext) openai name) \/
   (not_set (process_env ext) "OPENAI_API_KEY" /\
    not_set (process_env ext) "AZURE_OPENAI_API_DEPLOYMENT_NAME")).
Proof.
  intros Hvalid. split; [|split; [|split]].
  - intros name Hchoice.
    exists (request_params ext streaming request items name).
    rewrite (postChat_valid _ _ _ _ _ _ Hvalid Hchoice I), served_calls.
    split; reflexivity.
  - intros azureADTokenProvider name Hchoice. split; [|split].
    + inversion Hchoice. reflexivity.
    + intros Hbuilt.
      exists (request_params ext streaming request items name).
      rewrite (postChat_valid _ _ _ _ _ _ Hvalid Hchoice Hbuilt), served_calls.
      split; reflexivity.
    + intros error Hthrows.
      exact (postChat_unconstructible _ _ _ _ _ _ _ Hvalid Hchoice Hthrows).
  - intros Hkey Hname.
    rewrite (postChat_unconfigured _ _ _ _ Hvalid Hkey Hname). split; reflexivity.
  - destruct (truthy_string (process_env ext !! "OPENAI_API_KEY")) as [key|] eqn:Hkey.
    + apply truthy_string_Some in Hkey. left.
      destruct (truthy_string (process_env ext !! "OPENAI_MODEL_NAME")) as [name|] eqn:Hname.
      * apply truthy_string_Some in Hname. eauto using direct_named.
      * apply truthy_string_None in Hname. eauto using direct_default.
    + apply truthy_string_None in Hkey.
      destruct (truthy_string (process_env ext !! "AZURE_OPENAI_API_DEPLOYMENT_NAME"))
        as [deployment|] eqn:Hname.
      * apply truthy_string_Some in Hname. left. eauto using managed.
      * apply truthy_string_None in Hname. right. auto.
Qed.

(** C4.  In a streaming call that reaches the provider, the body of the
    response is the generator over the provider's stream, under the NDJSON
    headers.  Read to its end it gives exactly the lines of the events that
    carry a text delta, one line each, in the order of the events and with
    nothing after them, and it ends as the provider's stream does.  It is
    lazy: one [next()] passes over the events without a text delta and
    stops at the first that has one, whose line it yields; what is left of
    the provider's stream is untouched.  A line is the serialization of
    [{delta: {content, role: "assistant"}}] with a line feed after it; for
    the deltas [Hel], [lo] and an event without delta between them the
    lines are the two of the specification. *)
Theorem streaming_body_is_ndjson ext request openai params chunks :
  In (Create openai params) (fst (postChat ext true request)) ->
  stream_of ext openai params = Normal chunks ->
  snd (postChat ext true request)
  = Normal {| status := None;
              headers := [("Content-Type", "application/x-ndjson");
                          ("Transfer-Encoding", "chunked")];
              body := Some (Stream (Readable_from (createJsonStream chunks)));
              jsonBody := None |} /\
  Readable_read_all (Readable_from (createJsonStream chunks))
  = Some (ndjson_lines (stream_events chunks), stream_failure chunks) /\
  (forall skipped event text rest,
     Forall (fun skippedEvent => text_delta skippedEvent = None) skipped ->
     text_delta event = Some text ->
     next (createJsonStream (followed_by (skipped ++ [event]) rest))
     = (Yield (JSON_stringify {| delta := {| content := Some text; role := "assistant" |} |}
               +:+ newline),
        createJsonStream rest)) /\
  (forall text,
     ndjson_line text
     = with_double_quotes "{'delta':{'content':" +:+ QuoteJSONString text
       +:+ with_double_quotes ",'role':'assistant'}}" +:+ newline) /\
  ndjson_lines [text_chunk "Hel"; role_chunk; text_chunk "lo"]
  = [with_double_quotes "{'delta':{'content':'Hel','role':'assistant'}}" +:+ newline;
     with_double_quotes "{'delta':{'content':'lo','role':'assistant'}}" +:+ newline].
Proof.
  intros Hin Hstream.
  destruct (postChat_call_inv _ _ _ _ _ Hin)
    as (items & name & Hvalid & Hchoice & Hbuilt & ->).
  split; [|split; [|split; [|split]]].
  - rewrite (postChat_valid _ _ _ _ _ _ Hvalid Hchoice Hbuilt). unfold served.
    rewrite Hstream. reflexivity.
  - apply read_all_spec.
  - intros skipped event text rest Hskipped Hevent.
    rewrite followed_by_app. unfold next. rewrite (resume_skips _ _ Hskipped).
    simpl. rewrite <- text_delta_first, Hevent. reflexivity.
  - apply ndjson_line_format.
  - reflexivity.
Qed.

(** C5.  In a call without streaming that reaches the provider, when the
    provider answers with a completion, the response carries as JSON body
    [{message: {content, role: "assistant"}}] with the content of the
    completion's first choice. *)
Theorem completion_response ext request openai params response choice others :
  In (Create openai params) (fst (postChat ext false request)) ->
  completion_of ext openai params = Normal response ->
  ChatCompletion.choices response = choice :: others ->
  snd (postChat ext false request)
  = Normal {| status := None;
              headers := [];
              body := None;
              jsonBody :=
                Some {| message :=
                          {| content := ChatCompletion.content (ChatCompletion.message choice);
                             role := "assistant" |} |} |}.
Proof.
  intros Hin Hresponse Hchoices.
  destruct (postChat_call_inv _ _ _ _ _ Hin)
    as (items & name & Hvalid & Hchoice & Hbuilt & ->).
  rewrite (postChat_valid _ _ _ _ _ _ Hvalid Hchoice Hbuilt). unfold served.
  rewrite Hresponse, Hchoices. reflexivity.
Qed.

(** C6.  Whatever call reaches the provider, streaming or not, its message
    list is the system message (role [system], content [systemPrompt])
    followed by the messages of the request body, as they came. *)
Theorem system_message_first ext streaming request openai params :
  In (Create openai params) (fst (postChat ext streaming request)) ->
  exists body items,
    request_json request = Normal body /\
    get "messages" body = Some (JArray items) /\
    messages params
    = JObject [("role", JString "system"); ("content", JString systemPrompt)] :: items.
Proof.
  intros Hin.
  destruct (postChat_call_inv _ _ _ _ _ Hin)
    as (items & name & Hvalid & Hchoice & Hbuilt & ->).
  destruct Hvalid as (body & lastMessage & c & Hjson & Hmessages & _).
  exists body, items. auto.
Qed.

(** C7.  With valid messages and neither [OPENAI_API_KEY] nor
    [AZURE_OPENAI_API_DEPLOYMENT_NAME] set, the handler answers with status
    500 and the service-unavailable text, and all it does besides is to log,
    through [context.error], a line that ends with the text of the error
    raised. *)
Theorem unconfigured_is_500 ext streaming request items :
  valid_messages request items ->
  not_set (process_env ext) "OPENAI_API_KEY" ->
  not_set (process_env ext) "AZURE_OPENAI_API_DEPLOYMENT_NAME" ->
  postChat ext streaming request
  = ([LogError ("Error when processing chat-post request: "
                +:+ "No OpenAI API key or Azure OpenAI deployment provided")],
     Normal {| status := Some 500;
               headers := [];
               body := Some (Text "Service temporarily unavailable. Please try again later.");
               jsonBody := None |}).
Proof. intros Hvalid Hkey Hname. exact (postChat_unconfigured _ _ _ _ Hvalid Hkey Hname). Qed.

(** C8, as amended.  Once a call reaches the provider, an error thrown
    inside the handler's [try] block (by the awaited call, with or without
    streaming, or by reading the first choice of a completion that has
    none) is caught: its message is logged through [context.error], and
    the response is status 500 with the same text whatever the error was.
    An error of the provider's stream is raised later, when the body is
    read: the handler has answered by then with the NDJSON stream, has
    logged nothing, and the stream ends with that error after the lines of
    the events before it. *)
Theorem provider_failure_is_500 ext streaming request openai params :
  In (Create openai params) (fst (postChat ext streaming request)) ->
  let failed error :=
    postChat ext streaming request
    = ([Log (selection_log openai); Create openai params;
        LogError ("Error when processing chat-post request: " +:+ message_of ext error)],
       Normal {| status := Some 500;
                 headers := [];
                 body := Some (Text "Service temporarily unavailable. Please try again later.");
                 jsonBody := None |}) in
  (forall error,
     streaming = true -> stream_of ext openai params = Throw error -> failed error) /\
  (forall error,
     streaming = false -> completion_of ext openai params = Throw error -> failed error) /\
  (forall response,
     streaming = false -> completion_of ext openai params = Normal response ->
     ChatCompletion.choices response = [] ->
     failed (TypeError (ReadOfUndefined "message"))) /\
  (forall chunks,
     streaming = true -> stream_of ext openai params = Normal chunks ->
     postChat ext streaming request
     = ([Log (selection_log openai); Create openai params],
        Normal {| status := None;
                  headers := [("Content-Type", "application/x-ndjson");
                              ("Transfer-Encoding", "chunked")];
                  body := Some (Stream (Readable_from (createJsonStream chunks)));
                  jsonBody := None |}) /\
     Readable_read_all (Readable_from (createJsonStream chunks))
     = Some (ndjson_lines (stream_events chunks), stream_failure chunks)).
Proof.
  intros Hin failed. subst failed.
  destruct (postChat_call_inv _ _ _ _ _ Hin)
    as (items & name & Hvalid & Hchoice & Hbuilt & ->).
  rewrite (postChat_valid _ _ _ _ _ _ Hvalid Hchoice Hbuilt). unfold served, error_line.
  split; [|split; [|split]].
  - intros error -> Hthrow. rewrite Hthrow. reflexivity.
  - intros error -> Hthrow. rewrite Hthrow. reflexivity.
  - intros response -> Hresponse Hchoices. rewrite Hresponse, Hchoices. reflexivity.
  - intros chunks -> Hstream. rewrite Hstream. split; [reflexivity|apply read_all_spec].
Qed.

(** C9.  Whatever call reaches the provider, streaming or not, its
    [user_security_context] is the security context of the request when
    [MS_DEFENDER_ENABLED] is set to a non-empty string, whichever ([false]
    and [0] included), and [undefined] when it is unset or empty. *)
Theorem security_context_iff_enabled ext streaming request openai params :
  In (Create openai params) (fst (postChat ext streaming request)) ->
  (forall value,
     is_set (process_env ext) "MS_DEFENDER_ENABLED" value ->
     user_security_context params = Some (getMsDefenderUserJson ext request)) /\
  (not_set (process_env ext) "MS_DEFENDER_ENABLED" ->
   user_security_context params = None) /\
  (is_Some (user_security_context params) <->
   exists value, is_set (process_env ext) "MS_DEFENDER_ENABLED" value) /\
  (process_env ext !! "MS_DEFENDER_ENABLED" = Some "false" \/
   process_env ext !! "MS_DEFENDER_ENABLED" = Some "0" ->
   user_security_context params = Some (getMsDefenderUserJson ext request)).
Proof.
  intros Hin.
  destruct (postChat_call_inv _ _ _ _ _ Hin)
    as (items & name & Hvalid & Hchoice & Hbuilt & ->).
  unfold request_params, attached_context. simpl.
  assert (Hset : forall value, is_set (process_env ext) "MS_DEFENDER_ENABLED" value ->
    match truthy_string (process_env ext !! "MS_DEFENDER_ENABLED") with
    | Some _ => Some (getMsDefenderUserJson ext request)
    | None => None
    end = Some (getMsDefenderUserJson ext request)).
  { intros value H. rewrite (is_set_truthy _ _ _ H). reflexivity. }
  repeat split.
  - exact Hset.
  - intros H. rewrite (not_set_truthy _ _ H). reflexivity.
  - destruct (truthy_string (process_env ext !! "MS_DEFENDER_ENABLED")) as [value|] eqn:H.
    + intros _. exists value. apply truthy_string_Some, H.
    + intros [? [=]].
  - intros [value H]. rewrite (Hset value H). eauto.
  - intros [H|H]; [apply (Hset "false")|apply (Hset "0")]; split; auto; discriminate.
Qed.

(** C10.  The generator reads the first choice of a chunk and nothing
    else.  A chunk without choices, or whose first choice has a delta
    without content, or with the empty string as content, gives no line:
    [next()] goes on with the chunks after it, whatever the other choices
    carry.  And a chunk gives what the chunk with its first choice alone
    would give. *)
Theorem only_first_choice_is_read :
  (forall rest,
     next (createJsonStream (StreamChunk {| ChatCompletionChunk.choices := [] |} rest))
     = next (createJsonStream rest)) /\
  (forall role others rest,
     next (createJsonStream (StreamChunk
       {| ChatCompletionChunk.choices :=
            {| ChatCompletionChunk.delta :=
                 {| ChatCompletionChunk.content := None;
                    ChatCompletionChunk.role := role |} |} :: others |} rest))
     = next (createJsonStream rest)) /\
  (forall role others rest,
     next (createJsonStream (StreamChunk
       {| ChatCompletionChunk.choices :=
            {| ChatCompletionChunk.delta :=
                 {| ChatCompletionChunk.content := Some "";
                    ChatCompletionChunk.role := role |} |} :: others |} rest))
     = next (createJsonStream rest)) /\
  (forall choice others rest,
     next (createJsonStream (StreamChunk
       {| ChatCompletionChunk.choices := choice :: others |} rest))
     = next (createJsonStream (StreamChunk
       {| ChatCompletionChunk.choices := [choice] |} rest))) /\
  (forall choice others rest,
     Readable_read_all (Readable_from (createJsonStream (StreamChunk
       {| ChatCompletionChunk.choices := choice :: others |} rest)))
     = Readable_read_all (Readable_from (createJsonStream (StreamChunk
       {| ChatCompletionChunk.choices := [choice] |} rest)))).
Proof.
  split; [|split; [|split; [|split]]].
  - intros rest. reflexivity.
  - intros role others rest. reflexivity.
  - intros role others rest. reflexivity.
  - intros choice others rest. reflexivity.
  - intros choice others rest. rewrite !read_all_spec. reflexivity.
Qed.
End Properties.

(** ** The claims at work *)

Lemma hello_request_valid : valid_messages hello_request [user_message "Hello"].
Proof.
  exists (JObject [("messages", JArray [user_message "Hello"])]),
    (user_message "Hello"), (JString "Hello").
  repeat split; reflexivity.
Qed.

(** Closes a goal [In (Create _ _) (fst (postChat _ _ _))] on closed terms:
    the call is the second event. *)
Ltac reaches_provider := vm_compute; right; left; reflexivity.

(** Closes [is_set] and [not_set] on a closed environment. *)
Ltac env_set := split; [vm_compute; reflexivity | discriminate].
Ltac env_not_set := left; vm_compute; reflexivity.

(** C1 at the request [{"messages": []}]. *)
Lemma empty_messages_is_400 :
  postChat openai_externals false (request_of (JObject [("messages", JArray [])]))
  = ([], Normal {| status := Some 400;
                   headers := [];
                   body := Some (Text "Invalid or missing messages in the request body");
                   jsonBody := None |})
  /\ provider_calls
       (fst (postChat openai_externals false (request_of (JObject [("messages", JArray [])]))))
     = [].
Proof.
  apply (postChat_rejects_unusable_messages openai_externals false
           (request_of (JObject [("messages", JArray [])]))
           (JObject [("messages", JArray [])])).
  - reflexivity.
  - right. left. reflexivity.
Defined.

(** C2 as it is written fails: a body that is no JSON text, and a body
    whose [messages] is a number, are answered with status 500, not 400. *)
Lemma malformed_body_is_500 :
  postChat openai_externals false unparseable_request
  = ([LogError "Error when processing chat-post request: Unexpected end of JSON input"],
     Normal {| status := Some 500;
               headers := [];
               body := Some (Text "Service temporarily unavailable. Please try again later.");
               jsonBody := None |})
  /\ snd (postChat openai_externals false
            (request_of (JObject [("messages", JNumber 5)])))
     = Normal {| status := Some 500;
                 headers := [];
                 body := Some (Text "Service temporarily unavailable. Please try again later.");
                 jsonBody := None |}.
Proof. split; vm_compute; reflexivity. Qed.

(** C2 as amended, at a body that is no JSON text. *)
Lemma unparseable_request_is_500 :
  postChat openai_externals true unparseable_request
  = ([LogError "Error when processing chat-post request: Unexpected end of JSON input"],
     Normal {| status := Some 500;
               headers := [];
               body := Some (Text "Service temporarily unavailable. Please try again later.");
               jsonBody := None |}).
Proof.
  apply (postChat_unparseable_body openai_externals true unparseable_request
           (ErrorObject "SyntaxError" "Unexpected end of JSON input")).
  reflexivity.
Defined.

(** C3 as amended, where the deployment name, the endpoint and the API
    version are set: one call, by the Azure client, with the deployment
    name as model. *)
Lemma azure_is_selected :
  exists params,
    provider_calls (fst (postChat azure_externals false hello_request))
    = [(AzureOpenAI (getBearerTokenProvider DefaultAzureCredential azureOpenAiScope), params)]
    /\ model params = "gpt-4o".
Proof.
  destruct (provider_selection azure_externals false hello_request [user_message "Hello"]
              hello_request_valid) as (_ & Hazure & _).
  destruct (Hazure (getBearerTokenProvider DefaultAzureCredential azureOpenAiScope) "gpt-4o")
    as (_ & Hbuilt & _).
  - apply managed; [env_not_set | env_set].
  - apply Hbuilt. vm_compute. reflexivity.
Defined.

(** C3 as it is written fails: with the deployment name set and nothing
    else, the Azure client is chosen and its constructor throws; the
    handler logs and answers 500, and no provider is called. *)
Lemma deployment_alone_makes_no_call :
  deployment_only_env !! "AZURE_OPENAI_API_DEPLOYMENT_NAME" = Some "gpt-4o"
  /\ deployment_only_env !! "OPENAI_API_KEY" = None
  /\ provider_calls (fst (postChat deployment_only_externals false hello_request)) = []
  /\ exists line,
       postChat deployment_only_externals false hello_request
       = ([Log "Using Azure OpenAI"; LogError line],
          Normal {| status := Some 500;
                    headers := [];
                    body := Some (Text "Service temporarily unavailable. Please try again later.");
                    jsonBody := None |}).
Proof.
  split; [vm_compute; reflexivity|].
  split; [vm_compute; reflexivity|].
  split; [vm_compute; reflexivity|].
  eexists. vm_compute. reflexivity.
Qed.

(** C4 at the stream of the specification: [Hel], an event without delta,
    [lo]. *)
Lemma hello_stream_is_two_lines :
  snd (postChat openai_externals true hello_request)
  = Normal {| status := None;
              headers := [("Content-Type", "application/x-ndjson");
                          ("Transfer-Encoding", "chunked")];
              body := Some (Stream (Readable_from (createJsonStream hello_stream)));
              jsonBody := None |}
  /\ Readable_read_all (Readable_from (createJsonStream hello_stream))
     = Some ([with_double_quotes "{'delta':{'content':'Hel','role':'assistant'}}" +:+ newline;
              with_double_quotes "{'delta':{'content':'lo','role':'assistant'}}" +:+ newline],
             None).
Proof.
  destruct (streaming_body_is_ndjson openai_externals hello_request OpenAI
              (request_params openai_externals true hello_request
                 [user_message "Hello"] "gpt-4o-mini")
              hello_stream) as (Hbody & Hlines & _).
  - reaches_provider.
  - reflexivity.
  - split; [exact Hbody | exact Hlines].
Defined.

(** C5 at a completion whose first choice says [Hello!]. *)
Lemma hello_completion_is_relayed :
  snd (postChat openai_externals false hello_request)
  = Normal {| status := None;
              headers := [];
              body := None;
              jsonBody :=
                Some {| message := {| content := Some "Hello!"; role := "assistant" |} |} |}.
Proof.
  apply (completion_response openai_externals hello_request OpenAI
           (request_params openai_externals false hello_request
              [user_message "Hello"] "gpt-4o-mini")
           hello_completion
           {| ChatCompletion.message :=
                {| ChatCompletion.content := Some "Hello!";
                   ChatCompletion.role := "assistant" |} |}
           []).
  - reaches_provider.
  - reflexivity.
  - reflexivity.
Defined.

(** C6 at a request with one message. *)
Lemma hello_follows_system_message :
  exists body items,
    request_json hello_request = Normal body /\
    get "messages" body = Some (JArray items) /\
    messages (request_params openai_externals true hello_request
                [user_message "Hello"] "gpt-4o-mini")
    = JObject [("role", JString "system"); ("content", JString systemPrompt)] :: items.
Proof.
  apply (system_message_first openai_externals true hello_request OpenAI).
  reaches_provider.
Defined.

(** C7 under an empty environment. *)
Lemma empty_environment_is_500 :
  postChat unconfigured_externals false hello_request
  = ([LogError ("Error when processing chat-post request: "
                +:+ "No OpenAI API key or Azure OpenAI deployment provided")],
     Normal {| status := Some 500;
               headers := [];
               body := Some (Text "Service temporarily unavailable. Please try again later.");
               jsonBody := None |}).
Proof.
  apply (unconfigured_is_500 unconfigured_externals false hello_request
           [user_message "Hello"] hello_request_valid); env_not_set.
Defined.

(** C8 as it is written fails: when the provider's stream breaks after
    its first chunk, the handler has answered with the stream and logged
    nothing; the error comes out of the body, after the first line. *)
Lemma interrupted_stream_is_not_500 :
  postChat interrupted_externals true hello_request
  = ([Log "Using OpenAI API";
      Create OpenAI (request_params interrupted_externals true hello_request
                       [user_message "Hello"] "gpt-4o-mini")],
     Normal {| status := None;
               headers := [("Content-Type", "application/x-ndjson");
                           ("Transfer-Encoding", "chunked")];
               body := Some (Stream (Readable_from (createJsonStream interrupted_stream)));
               jsonBody := None |})
  /\ Readable_read_all (Readable_from (createJsonStream interrupted_stream))
     = Some ([with_double_quotes "{'delta':{'content':'Hel','role':'assistant'}}" +:+ newline],
             Some (Error "Connection error.")).
Proof. split; vm_compute; reflexivity. Qed.

(** C8 as amended, at a provider whose streaming call fails. *)
Lemma connection_error_is_500 :
  postChat failing_externals true hello_request
  = ([Log "Using OpenAI API";
      Create OpenAI (request_params failing_externals true hello_request
                       [user_message "Hello"] "gpt-4o-mini");
      LogError "Error when processing chat-post request: Connection error."],
     Normal {| status := Some 500;
               headers := [];
               body := Some (Text "Service temporarily unavailable. Please try again later.");
               jsonBody := None |}).
Proof.
  destruct (provider_failure_is_500 failing_externals true hello_request OpenAI
              (request_params failing_externals true hello_request
                 [user_message "Hello"] "gpt-4o-mini")) as (Hstream & _).
  - reaches_provider.
  - exact (Hstream (Error "Connection error.") eq_refl eq_refl).
Defined.

(** C9 where [MS_DEFENDER_ENABLED] is [false]: the context is attached. *)
Lemma defender_false_attaches :
  user_security_context
    (request_params azure_externals false hello_request [user_message "Hello"] "gpt-4o")
  = Some (request_headers hello_request).
Proof.
  destruct (security_context_iff_enabled azure_externals false hello_request
              (AzureOpenAI (getBearerTokenProvider DefaultAzureCredential azureOpenAiScope))
              (request_params azure_externals false hello_request
                 [user_message "Hello"] "gpt-4o")) as (_ & _ & _ & Hfalse).
  - reaches_provider.
  - apply Hfalse. left. vm_compute. reflexivity.
Defined.

(** ** More of the handler *)

Section Coverage.
Context {UserSecurityContext : Type}.
Implicit Types (ext : Externals UserSecurityContext) (env : gmap string string).
Implicit Types (request : HttpRequest) (items : list JSON).

(** How an invocation can go: the messages are refused; or an error is
    thrown before a client is chosen; or the constructor of the Azure
    client throws; or the messages are valid, a client is chosen and built
    and the call is made. *)
Lemma postChat_cases ext streaming request :
  postChat ext streaming request = ([], Normal bad_request) \/
  (exists error,
     postChat ext streaming request
     = ([LogError (error_line ext error)], Normal service_unavailable)) \/
  (exists error,
     postChat ext streaming request
     = ([Log "Using Azure OpenAI"; LogError (error_line ext error)],
        Normal service_unavailable)) \/
  (exists items openai name,
     valid_messages request items /\
     ProviderChoice (process_env ext) openai name /\
     postChat ext streaming request
     = served ext streaming openai (request_params ext streaming request items name)).
Proof.
  destruct (request_json request) as [body|e] eqn:Hjson.
  2:{ right. left. exists e. unfold postChat, postChat_try. rewrite Hjson. reflexivity. }
  destruct (destructure "messages" body) as [v|e] eqn:Hbody.
  2:{ right. left. exists e. unfold postChat, postChat_try.
      rewrite Hjson, bind_Normal, Hbody. reflexivity. }
  destruct (invalid_messages v) as [[|]|e] eqn:Hinvalid.
  - left. unfold postChat, postChat_try.
    rewrite Hjson, bind_Normal, Hbody, bind_Normal, Hinvalid. reflexivity.
  - apply invalid_messages_false in Hinvalid
      as (items & lastMessage & c & -> & Hlast & Hc & Htruthy).
    apply destructure_Normal in Hbody as [_ Hmessages].
    assert (Hvalid : valid_messages request items).
    { exists body, lastMessage, c. auto. }
    right.
    destruct (truthy_string (process_env ext !! "OPENAI_API_KEY")) as [key|] eqn:Hkey.
    + apply truthy_string_Some in Hkey. right. right. exists items, OpenAI.
      destruct (truthy_string (process_env ext !! "OPENAI_MODEL_NAME")) as [name|] eqn:Hname.
      * apply truthy_string_Some in Hname.
        assert (Hchoice := direct_named _ key name Hkey Hname).
        exists name. split; [exact Hvalid|]. split; [exact Hchoice|].
        exact (postChat_valid _ _ _ _ _ _ Hvalid Hchoice I).
      * apply truthy_string_None in Hname.
        assert (Hchoice := direct_default _ key Hkey Hname).
        exists "gpt-4o-mini". split; [exact Hvalid|]. split; [exact Hchoice|].
        exact (postChat_valid _ _ _ _ _ _ Hvalid Hchoice I).
    + apply truthy_string_None in Hkey.
      destruct (truthy_string (process_env ext !! "AZURE_OPENAI_API_DEPLOYMENT_NAME"))
        as [deployment|] eqn:Hname.
      * apply truthy_string_Some in Hname. right.
        assert (Hchoice := managed _ deployment Hkey Hname).
        destruct (AzureOpenAI_throws ext
                    (getBearerTokenProvider DefaultAzureCredential azureOpenAiScope))
          as [error|] eqn:Hthrows.
        -- left. exists error.
           exact (postChat_unconstructible _ _ _ _ _ _ _ Hvalid Hchoice Hthrows).
        -- right. eexists items, _, deployment.
           split; [exact Hvalid|]. split; [exact Hchoice|].
           exact (postChat_valid _ _ _ _ _ _ Hvalid Hchoice Hthrows).
      * apply truthy_string_None in Hname. left. eexists.
        exact (postChat_unconfigured _ _ _ _ Hvalid Hkey Hname).
  - right. left. exists e. unfold postChat, postChat_try.
    rewrite Hjson, bind_Normal, Hbody, bind_Normal, Hinvalid. reflexivity.
Qed.

(** One invocation, at most one provider call. *)
Theorem at_most_one_provider_call ext streaming request :
  List.length (provider_calls (fst (postChat ext streaming request))) <= 1.
Proof.
  destruct (postChat_cases ext streaming request)
    as [-> | [[error ->] | [[error ->] | (items & openai & name & _ & _ & ->)]]];
    simpl; auto.
  rewrite served_calls. simpl. auto.
Qed.

(** A provider is called exactly when the messages are valid and a client
    is configured and can be built. *)
Theorem provider_called_iff ext streaming request :
  (exists openai params,
     In (Create openai params) (fst (postChat ext streaming request)))
  <->
  (exists items, valid_messages request items) /\
  (exists openai name,
     ProviderChoice (process_env ext) openai name /\ constructible ext openai).
Proof.
  split.
  - intros (openai & params & Hin).
    destruct (postChat_call_inv _ _ _ _ _ Hin)
      as (items & name & Hvalid & Hchoice & Hbuilt & _).
    split; [exists items; exact Hvalid|exists openai, name; split; assumption].
  - intros [[items Hvalid] (openai & name & Hchoice & Hbuilt)].
    eauto using postChat_reaches_provider.
Qed.


(** Every invocation ends in one of four ways, and the log tells which:
    status 400 and no event; status 500 and one error line, the last
    event; the NDJSON stream (with streaming only) or the JSON message
    (without streaming only), after the line of the selection and the call,
    and no error line. *)
Theorem postChat_outcomes ext streaming request :
  exists response,
    snd (postChat ext streaming request) = Normal response /\
    ((response = bad_request /\ fst (postChat ext streaming request) = []) \/
     (response = service_unavailable /\
      exists before error,
        fst (postChat ext streaming request)
        = (before ++ [LogError ("Error when processing chat-post request: "
                                +:+ message_of ext error)])%list /\
        Forall (fun event => forall line, event <> LogError line) before) \/
     (exists openai params chunks,
        streaming = true /\
        stream_of ext openai params = Normal chunks /\
        response = ndjson_response chunks /\
        fst (postChat ext streaming request)
        = [Log (selection_log openai); Create openai params]) \/
     (exists openai params completion choice others,
        streaming = false /\
        completion_of ext openai params = Normal completion /\
        ChatCompletion.choices completion = choice :: others /\
        response = json_response (ChatCompletion.content (ChatCompletion.message choice)) /\
        fst (postChat ext streaming request)
        = [Log (selection_log openai); Create openai params])).
Proof.
  assert (Hquiet : forall openai (params : ChatCompletionCreateParams UserSecurityContext),
    Forall (fun event : Event UserSecurityContext => forall line, event <> LogError line)
      [Log (selection_log openai); Create openai params]).
  { intros openai params. repeat constructor; discriminate. }
  destruct (postChat_cases ext streaming request)
    as [-> | [[error ->] | [[error ->] | (items & openai & name & _ & _ & ->)]]].
  - exists bad_request. split; [reflexivity|]. left. split; reflexivity.
  - exists service_unavailable. split; [reflexivity|]. right. left.
    split; [reflexivity|]. exists [], error. split; [reflexivity|constructor].
  - exists service_unavailable. split; [reflexivity|]. right. left.
    split; [reflexivity|]. exists [Log "Using Azure OpenAI"], error.
    split; [reflexivity|]. repeat constructor. discriminate.
  - set (params := request_params ext streaming request items name).
    unfold served. destruct streaming.
    + destruct (stream_of ext openai params) as [chunks|error] eqn:Hstream.
      * exists (ndjson_response chunks). split; [reflexivity|].
        right. right. left. exists openai, params, chunks. auto.
      * exists service_unavailable. split; [reflexivity|]. right. left.
        split; [reflexivity|]. eexists _, error. split; [reflexivity|apply Hquiet].
    + destruct (completion_of ext openai params) as [completion|error] eqn:Hcompletion.
      * destruct (ChatCompletion.choices completion) as [|choice others] eqn:Hchoices.
        -- exists service_unavailable. split; [reflexivity|]. right. left.
           split; [reflexivity|].
           eexists _, (TypeError (ReadOfUndefined "message")).
           split; [reflexivity|apply Hquiet].
        -- eexists. split; [reflexivity|]. right. right. right.
           exists openai, params, completion, choice, others. auto.
      * exists service_unavailable. split; [reflexivity|]. right. left.
        split; [reflexivity|]. eexists _, error. split; [reflexivity|apply Hquiet].
Qed.

(** Whatever call reaches the provider, its temperature is 0.7 and its
    [stream] key is [true] with streaming and left out without. *)
Theorem call_parameters_are_fixed ext streaming request openai params :
  In (Create openai params) (fst (postChat ext streaming request)) ->
  temperature params = (7 # 10)%Q /\
  stream params = (if streaming then Some true else None).
Proof.
  intros Hin.
  destruct (postChat_call_inv _ _ _ _ _ Hin) as (items & name & _ & _ & _ & ->).
  split; reflexivity.
Qed.

(** While [MS_DEFENDER_ENABLED] is not set the headers of the request play
    no part: a request with the same body and other headers has the same
    outcome, event by event. *)
Theorem headers_unread_without_defender ext streaming request others :
  not_set (process_env ext) "MS_DEFENDER_ENABLED" ->
  postChat ext streaming (with_headers request others) = postChat ext streaming request.
Proof.
  intros Hdefender. unfold postChat, postChat_try, with_headers.
  rewrite (not_set_truthy _ _ Hdefender). reflexivity.
Qed.

(** A [messages] that is no array.  A falsy value and any string are
    refused with status 400, and so is an object whose own [length] is 0;
    [true], a number other than 0 and any other object have no method [at]:
    the call throws and the handler answers 500. *)
Theorem messages_of_the_wrong_shape ext streaming request body v :
  request_json request = Normal body ->
  get "messages" body = Some v ->
  let refused := postChat ext streaming request = ([], Normal bad_request) in
  let failed :=
    postChat ext streaming request
    = ([LogError ("Error when processing chat-post request: "
                  +:+ typeErrorMessage ext (NotAFunction "at"))],
       Normal service_unavailable) in
  (truthy (Some v) = false -> refused) /\
  (forall s, v = JString s -> refused) /\
  (forall props, v = JObject props -> assoc "length" props = Some (JNumber 0) -> refused) /\
  (v = JBool true -> failed) /\
  (forall n, v = JNumber n -> n <> 0%Z -> failed) /\
  (forall props,
     v = JObject props -> assoc "length" props <> Some (JNumber 0) -> failed).
Proof.
  intros Hjson Hget refused failed. subst refused failed.
  assert (Hbody : destructure "messages" body = Normal (Some v)).
  { apply destructure_Normal. split; [intros ->; discriminate|exact Hget]. }
  assert (Hrun : forall outcome,
    invalid_messages (Some v) = outcome ->
    postChat ext streaming request
    = match outcome with
      | Normal true => ([], Normal bad_request)
      | Throw e => ([LogError (error_line ext e)], Normal service_unavailable)
      | Normal false => postChat ext streaming request
      end).
  { intros outcome <-. destruct (invalid_messages (Some v)) as [[|]|e] eqn:Hinvalid;
      [|reflexivity|];
      unfold postChat, postChat_try;
      rewrite Hjson, bind_Normal, Hbody, bind_Normal, Hinvalid; reflexivity. }
  split; [|split; [|split; [|split; [|split]]]].
  - intros Hfalsy. apply (Hrun (Normal true)).
    unfold invalid_messages. rewrite Hfalsy. reflexivity.
  - intros s ->. apply (Hrun (Normal true)).
    unfold invalid_messages. simpl.
    destruct (String.eqb s ""); simpl; [reflexivity|].
    destruct (Nat.eqb (String.length s) 0); [reflexivity|].
    rewrite Array_at_last.
    destruct (last_characters s) as [->|[c ->]]; reflexivity.
  - intros props -> Hlength. apply (Hrun (Normal true)).
    unfold invalid_messages. simpl. rewrite Hlength. reflexivity.
  - intros ->. apply (Hrun (Throw (TypeError (NotAFunction "at")))). reflexivity.
  - intros n -> Hn. apply (Hrun (Throw (TypeError (NotAFunction "at")))).
    unfold invalid_messages. simpl.
    destruct (Z.eqb_spec n 0); [contradiction|reflexivity].
  - intros props -> Hlength. apply (Hrun (Throw (TypeError (NotAFunction "at")))).
    unfold invalid_messages. simpl.
    destruct (assoc "length" props) as [[| | n | | |]|]; try reflexivity.
    destruct (Z.eqb_spec n 0) as [->|]; [contradiction|reflexivity].
Qed.

(** Only the last message is looked at.  Whatever stands before it in the
    array (values that are no messages included) goes to the provider with
    it, after the system message and in the order it came, once a client
    is chosen and built. *)
Theorem only_last_message_is_checked ext streaming request body earlier lastMessage c
    openai name :
  request_json request = Normal body ->
  get "messages" body = Some (JArray (earlier ++ [lastMessage])) ->
  get "content" lastMessage = Some c ->
  truthy (Some c) = true ->
  ProviderChoice (process_env ext) openai name ->
  constructible ext openai ->
  exists params,
    provider_calls (fst (postChat ext streaming request)) = [(openai, params)] /\
    messages params = system_message :: (earlier ++ [lastMessage])%list.
Proof.
  intros Hjson Hget Hc Htruthy Hchoice Hbuilt.
  assert (Hvalid : valid_messages request (earlier ++ [lastMessage])).
  { exists body, lastMessage, c. rewrite last_snoc. auto. }
  eexists. rewrite (postChat_valid _ _ _ _ _ _ Hvalid Hchoice Hbuilt), served_calls.
  split; reflexivity.
Qed.


Lemma is_set_not_set env name value : is_set env name value -> not_set env name -> False.
Proof. intros [Hvalue Hne] [Hnone|Hempty]; congruence. Qed.

Lemma is_set_unique env name value value' :
  is_set env name value -> is_set env name value' -> value = value'.
Proof. intros [Hvalue _] [Hvalue' _]. congruence. Qed.

Lemma ProviderChoice_unique env openai name openai' name' :
  ProviderChoice env openai name -> ProviderChoice env openai' name' ->
  openai = openai' /\ name = name'.
Proof.
  intros [key model Hkey Hmodel | key Hkey Hmodel | deployment Hkey Hdeployment]
         [key' model' Hkey' Hmodel' | key' Hkey' Hmodel' | deployment' Hkey' Hdeployment'];
    try (exfalso; eauto using is_set_not_set; fail); split; try reflexivity;
    eauto using is_set_unique.
Qed.

Lemma valid_messages_unique request items items' :
  valid_messages request items -> valid_messages request items' -> items = items'.
Proof.
  intros (body & _ & _ & Hjson & Hget & _) (body' & _ & _ & Hjson' & Hget' & _).
  congruence.
Qed.

(** With and without streaming the provider is asked the same: the same
    client, messages, model, temperature and security context.  The calls
    differ in the [stream] key alone. *)
Theorem modes_differ_in_the_stream_key ext request openai params openai' params' :
  In (Create openai params) (fst (postChat ext true request)) ->
  In (Create openai' params') (fst (postChat ext false request)) ->
  openai = openai' /\
  messages params = messages params' /\
  model params = model params' /\
  temperature params = temperature params' /\
  user_security_context params = user_security_context params'.
Proof.
  intros Hin Hin'.
  destruct (postChat_call_inv _ _ _ _ _ Hin)
    as (items & name & Hvalid & Hchoice & Hbuilt & ->).
  destruct (postChat_call_inv _ _ _ _ _ Hin')
    as (items' & name' & Hvalid' & Hchoice' & Hbuilt' & ->).
  destruct (ProviderChoice_unique _ _ _ _ _ Hchoice Hchoice') as [-> ->].
  rewrite (valid_messages_unique _ _ _ Hvalid Hvalid').
  repeat split.
Qed.

(** *** The registered functions *)

(** Both functions take POST alone, from anyone, and never reject.  The
    function on [chat/stream] never answers with a JSON body, the function
    on [chat] never with a stream. *)
Theorem registered_functions_keep_their_mode :
  Forall (fun registration : string * HttpFunctionOptions UserSecurityContext =>
            let options := snd registration in
            methods options = ["POST"] /\
            authLevel options = "anonymous" /\
            (route options = "chat/stream" \/ route options = "chat") /\
            forall ext request,
              exists response,
                snd (handler options ext request) = Normal response /\
                (route options = "chat/stream" -> jsonBody response = None) /\
                (route options = "chat" -> forall r, body response <> Some (Stream r)))
         registered_functions.
Proof.
  assert (Hmode : forall ext streaming request,
    exists response,
      snd (postChat ext streaming request) = Normal response /\
      (streaming = true -> jsonBody response = None) /\
      (streaming = false -> forall r, body response <> Some (Stream r))).
  { intros ext streaming request.
    destruct (postChat_outcomes ext streaming request) as (response & Hresponse & Hcases).
    exists response. split; [exact Hresponse|].
    destruct Hcases as [[-> _] | [[-> _] | [Hstream | Hjson]]].
    - split; [reflexivity|]. intros _ r. discriminate.
    - split; [reflexivity|]. intros _ r. discriminate.
    - destruct Hstream as (openai & params & chunks & -> & _ & -> & _).
      split; [reflexivity|discriminate].
    - destruct Hjson as (openai & params & completion & choice & others & -> & _ & _ & -> & _).
      split; [discriminate|]. intros _ r. discriminate. }
  constructor; [|constructor; [|constructor]]; simpl.
  - split; [reflexivity|]. split; [reflexivity|]. split; [left; reflexivity|].
    intros ext request. destruct (Hmode ext true request) as (response & H1 & H2 & H3).
    exists response. split; [exact H1|]. split; [auto|discriminate].
  - split; [reflexivity|]. split; [reflexivity|]. split; [right; reflexivity|].
    intros ext request. destruct (Hmode ext false request) as (response & H1 & H2 & H3).
    exists response. split; [exact H1|]. split; [discriminate|auto].
Qed.

End Coverage.

(** *** The lines of the stream *)

Lemma length_append (s t : string) :
  String.length (s +:+ t) = String.length s + String.length t.
Proof.
  induction s as [|c s IH]; [reflexivity|].
  change (S (String.length (s +:+ t)) = S (String.length s + String.length t)).
  rewrite IH. reflexivity.
Qed.

Lemma append_inj_l (p s t : string) : p +:+ s = p +:+ t -> s = t.
Proof.
  induction p as [|c p IH]; [auto|].
  change (String c (p +:+ s) = String c (p +:+ t) -> s = t).
  intros [= H]. auto.
Qed.

Lemma append_inj_r (s t x : string) : s +:+ x = t +:+ x -> s = t.
Proof.
  revert t. induction s as [|a s IH]; intros [|b t] H.
  - reflexivity.
  - apply (f_equal String.length) in H. rewrite !length_append in H. simpl in H. lia.
  - apply (f_equal String.length) in H. rewrite !length_append in H. simpl in H. lia.
  - change (String a (s +:+ x) = String b (t +:+ x)) in H.
    injection H as -> H. rewrite (IH t H). reflexivity.
Qed.

Lemma no_control_characters_append (s t : string) :
  no_control_characters (s +:+ t) = no_control_characters s && no_control_characters t.
Proof.
  induction s as [|c s IH]; [reflexivity|].
  change (negb (Nat.ltb (nat_of_ascii c) 32) && no_control_characters (s +:+ t)
          = negb (Nat.ltb (nat_of_ascii c) 32) && no_control_characters s
            && no_control_characters t).
  rewrite IH. apply andb_assoc.
Qed.

Lemma quote_char_no_control (c : ascii) : no_control_characters (quote_char c) = true.
Proof. destruct c as [[] [] [] [] [] [] [] []]; reflexivity. Qed.

Lemma quote_chars_no_control (s : string) : no_control_characters (quote_chars s) = true.
Proof.
  induction s as [|c s IH]; [reflexivity|].
  change (no_control_characters (quote_char c +:+ quote_chars s) = true).
  rewrite no_control_characters_append, quote_char_no_control, IH. reflexivity.
Qed.

Lemma unquote_quote_char (c : ascii) (rest : string) :
  unquote_chars (quote_char c +:+ rest) = String c <$> unquote_chars rest.
Proof. destruct c as [[] [] [] [] [] [] [] []]; reflexivity. Qed.

Lemma unquote_quote_chars (s rest : string) :
  unquote_chars (quote_chars s +:+ rest) = String.append s <$> unquote_chars rest.
Proof.
  induction s as [|c s IH].
  - change (unquote_chars rest = String.append "" <$> unquote_chars rest).
    destruct (unquote_chars rest); reflexivity.
  - change (unquote_chars ((quote_char c +:+ quote_chars s) +:+ rest)
            = String.append (String c s) <$> unquote_chars rest).
    rewrite append_assoc, unquote_quote_char, IH.
    destruct (unquote_chars rest); reflexivity.
Qed.

Lemma ndjson_line_payload (text : string) :
  exists payload,
    ndjson_line text = payload +:+ newline /\ no_control_characters payload = true.
Proof.
  exists (with_double_quotes "{'delta':{'content':" +:+ QuoteJSONString text
          +:+ with_double_quotes ",'role':'assistant'}}").
  split.
  - rewrite ndjson_line_format, !append_assoc. reflexivity.
  - unfold QuoteJSONString.
    rewrite !no_control_characters_append, quote_chars_no_control. reflexivity.
Qed.

(** The body read to its end: every line ends in a line feed and holds no
    other, nor any other control character, whatever the text of the
    deltas.  The lines can be told apart by their line feeds. *)
Theorem lines_hold_one_line_feed (chunks : ChunkStream) :
  exists lines failure,
    Readable_read_all (Readable_from (createJsonStream chunks)) = Some (lines, failure) /\
    Forall (fun line =>
              exists payload,
                line = payload +:+ newline /\ no_control_characters payload = true)
           lines.
Proof.
  exists (ndjson_lines (stream_events chunks)), (stream_failure chunks).
  split; [apply read_all_spec|].
  induction (stream_events chunks) as [|event events IH]; [constructor|].
  rewrite ndjson_lines_cons. destruct (text_delta event) as [text|]; [|exact IH].
  constructor; [apply ndjson_line_payload|exact IH].
Qed.

(** The serialization loses nothing of a delta: two response chunks are
    written alike only when their texts are the same. *)
Theorem line_determines_text (text text' : string) :
  JSON_stringify {| delta := {| content := Some text; role := "assistant" |} |}
  = JSON_stringify {| delta := {| content := Some text'; role := "assistant" |} |}
  <-> text = text'.
Proof.
  split; [|intros ->; reflexivity].
  intros H.
  assert (Hline : ndjson_line text = ndjson_line text').
  { unfold ndjson_line. rewrite H. reflexivity. }
  rewrite !ndjson_line_format in Hline.
  apply append_inj_l in Hline. unfold QuoteJSONString in Hline.
  rewrite !append_assoc in Hline. apply append_inj_l in Hline.
  apply (f_equal unquote_chars) in Hline.
  rewrite !unquote_quote_chars in Hline.
  injection Hline as Hline. exact (append_inj_r _ _ _ Hline).
Qed.

(** ** More of the handler, at work *)

(** The fixed parameters, at a streaming call. *)
Lemma hello_call_parameters :
  temperature (request_params openai_externals true hello_request
                 [user_message "Hello"] "gpt-4o-mini") = (7 # 10)%Q
  /\ stream (request_params openai_externals true hello_request
               [user_message "Hello"] "gpt-4o-mini") = Some true.
Proof.
  apply (call_parameters_are_fixed openai_externals true hello_request OpenAI).
  reaches_provider.
Defined.

(** Other headers, the same outcome. *)
Lemma forwarded_header_changes_nothing :
  postChat openai_externals false
    (with_headers hello_request [("x-forwarded-for", "203.0.113.7")])
  = postChat openai_externals false hello_request.
Proof.
  apply (headers_unread_without_defender openai_externals false hello_request).
  env_not_set.
Defined.

(** A [messages] that is the number 5. *)
Lemma number_for_messages_is_500 :
  postChat openai_externals false (request_of (JObject [("messages", JNumber 5)]))
  = ([LogError ("Error when processing chat-post request: "
                +:+ typeErrorMessage openai_externals (NotAFunction "at"))],
     Normal service_unavailable).
Proof.
  destruct (messages_of_the_wrong_shape openai_externals false
              (request_of (JObject [("messages", JNumber 5)]))
              (JObject [("messages", JNumber 5)]) (JNumber 5) eq_refl eq_refl)
    as (_ & _ & _ & _ & Hnumber & _).
  apply (Hnumber 5%Z eq_refl). discriminate.
Defined.

(** A [null] and a number before the last message go to the provider. *)
Lemma junk_before_the_last_message :
  exists params,
    provider_calls
      (fst (postChat openai_externals false
              (request_of (JObject [("messages",
                 JArray [JNull; JNumber 5; user_message "Hello"])]))))
    = [(OpenAI, params)] /\
    messages params = [system_message; JNull; JNumber 5; user_message "Hello"].
Proof.
  apply (only_last_message_is_checked openai_externals false
           (request_of (JObject [("messages",
              JArray [JNull; JNumber 5; user_message "Hello"])]))
           (JObject [("messages", JArray [JNull; JNumber 5; user_message "Hello"])])
           [JNull; JNumber 5] (user_message "Hello") (JString "Hello")
           OpenAI "gpt-4o-mini");
    try reflexivity.
  apply direct_default with (key := "sk-test"); [env_set | env_not_set].
Defined.

(** The two modes at the same request. *)
Lemma hello_in_both_modes :
  OpenAI = OpenAI /\
  messages (request_params openai_externals true hello_request
              [user_message "Hello"] "gpt-4o-mini")
  = messages (request_params openai_externals false hello_request
                [user_message "Hello"] "gpt-4o-mini") /\
  model (request_params openai_externals true hello_request
           [user_message "Hello"] "gpt-4o-mini")
  = model (request_params openai_externals false hello_request
             [user_message "Hello"] "gpt-4o-mini") /\
  temperature (request_params openai_externals true hello_request
                 [user_message "Hello"] "gpt-4o-mini")
  = temperature (request_params openai_externals false hello_request
                   [user_message "Hello"] "gpt-4o-mini") /\
  user_security_context (request_params openai_externals true hello_request
                           [user_message "Hello"] "gpt-4o-mini")
  = user_security_context (request_params openai_externals false hello_request
                             [user_message "Hello"] "gpt-4o-mini").
Proof.
  apply (modes_differ_in_the_stream_key openai_externals hello_request); reaches_provider.
Defined.
